(** * Synthetic micro-mobility demand generator

    A shallow embedding of [src/data_collection/synthetic_data_generator.py]
    (class [MicroMobilityDataGenerator]) and the properties of its station
    registry, factor model, demand synthesizer, weather generator and
    events generator.

    Modelling conventions.
    - Python [int] is [Z].  Python [float] is modelled by the exact
      rationals [Q]: the constants of the source (1.5, 0.3, 0.05, ...) are
      the decimal fractions they denote, rounding is not modelled, and
      equality of computed values is [Qeq] ([==]).
    - A dictionary keyed by strings is a [gmap string _]; a missing key is
      the [KeyError] the source would raise.
    - The two global random streams ([random] and [numpy.random]) are two
      tapes of raw draws with a read position each, threaded through every
      stochastic operation by a state-and-exception monad.
    - A pandas [Timestamp] is its number of seconds since 1970-01-01T00:00;
      its calendar fields are computed from that number.
    - [print] calls are dropped; the arithmetic evaluated for them is kept,
      since it can raise. *)

From Stdlib Require Import ZArith QArith Qround Lia Lqa Ascii.
From stdpp Require Import base option list strings gmap pretty.

Local Open Scope Z_scope.

(** ** Exceptions and the generator monad *)

Inductive exn : Type :=
  | KeyError
  | IndexError
  | ZeroDivisionError
  | ValueError.

Inductive result (A : Type) : Type :=
  | Ok (a : A)
  | Raise (e : exn).
Arguments Ok {A} a.
Arguments Raise {A} e.

(** The process-wide random state: the stream of the [random] module and
    the stream of [numpy.random], each a tape and the index of the next
    unread cell. *)
Record RandomState : Type := mkRandomState {
  py_tape : nat -> Q;
  py_pos : nat;
  np_tape : nat -> Z;
  np_pos : nat
}.

Definition M (A : Type) : Type := RandomState -> result (A * RandomState).

Definition ret {A} (a : A) : M A := fun s => Ok (a, s).

Definition bind {A B} (c : M A) (k : A -> M B) : M B :=
  fun s => match c s with
           | Ok (a, s') => k a s'
           | Raise e => Raise e
           end.

Definition raise {A} (e : exn) : M A := fun _ => Raise e.

Definition lift {A} (r : result A) : M A :=
  fun s => match r with
           | Ok a => Ok (a, s)
           | Raise e => Raise e
           end.

Notation "'let*' x ':=' c 'in' k" := (bind c (fun x => k))
  (at level 10, x name, c at level 100, k at level 200).

(** ** Comparisons on rationals, as booleans *)

Definition Qlt_bool (x y : Q) : bool := negb (Qle_bool y x).

(** ** The [random] module and [numpy.random] *)

(** [random.random()]: the next cell of the tape, reduced to [[0, 1)]. *)
Definition frac (q : Q) : Q := (q - inject_Z (Qfloor q))%Q.

Definition random_random : M Q :=
  fun s => Ok (frac (py_tape s (py_pos s)),
               mkRandomState (py_tape s) (S (py_pos s)) (np_tape s) (np_pos s)).

(** [random.uniform(a, b)] is [a + (b - a) * random()]. *)
Definition random_uniform (a b : Q) : M Q :=
  let* r := random_random in ret (a + (b - a) * r)%Q.

(** An index below [n], from one draw. *)
Definition randbelow (n : Z) : M Z :=
  let* r := random_random in ret (Qfloor (r * inject_Z n)).

(** [random.choice(seq)]; an empty sequence raises [IndexError]. *)
Definition random_choice {A} (seq : list A) : M A :=
  match seq with
  | [] => raise IndexError
  | _ :: _ =>
      let* i := randbelow (Z.of_nat (length seq)) in
      match seq !! Z.to_nat i with
      | Some x => ret x
      | None => raise IndexError
      end
  end.

(** [random.randint(a, b)], both ends included. *)
Definition random_randint (a b : Z) : M Z :=
  let* k := randbelow (b - a + 1) in ret (a + k).

(** [numpy.random.poisson(lam)]: a negative mean raises [ValueError];
    otherwise the next cell of the numpy tape.  The cell is an arbitrary
    integer: nothing is assumed of the sampler's support. *)
Definition np_random_poisson (lam : Q) : M Z :=
  fun s => if Qlt_bool lam 0 then Raise ValueError
           else Ok (np_tape s (np_pos s),
                    mkRandomState (py_tape s) (py_pos s) (np_tape s) (S (np_pos s))).

(** ** Timestamps and their calendar fields *)

Abbreviation Timestamp := Z (only parsing).

Definition days_of (t : Timestamp) : Z := t `div` 86400.

(** Proleptic Gregorian date of a day number counted from 1970-01-01. *)
Definition civil_from_days (z : Z) : Z * Z * Z :=
  let z := z + 719468 in
  let era := z `div` 146097 in
  let doe := z - era * 146097 in
  let yoe := (doe - doe `div` 1460 + doe `div` 36524 - doe `div` 146096) `div` 365 in
  let y := yoe + era * 400 in
  let doy := doe - (365 * yoe + yoe `div` 4 - yoe `div` 100) in
  let mp := (5 * doy + 2) `div` 153 in
  let d := doy - (153 * mp + 2) `div` 5 + 1 in
  let m := if mp <? 10 then mp + 3 else mp - 9 in
  (if m <=? 2 then y + 1 else y, m, d).

Definition days_from_civil (y m d : Z) : Z :=
  let y := if m <=? 2 then y - 1 else y in
  let era := y `div` 400 in
  let yoe := y - era * 400 in
  let doy := (153 * (if 2 <? m then m - 3 else m + 9) + 2) `div` 5 + d - 1 in
  let doe := yoe * 365 + yoe `div` 4 - yoe `div` 100 + doy in
  era * 146097 + doe - 719468.

(** The [Timestamp] of a date and a time of day. *)
Definition mkTimestamp (y m d hh mm ss : Z) : Timestamp :=
  days_from_civil y m d * 86400 + hh * 3600 + mm * 60 + ss.

Definition ts_hour (t : Timestamp) : Z := (t `div` 3600) `mod` 24.
Definition ts_weekday (t : Timestamp) : Z := (days_of t + 3) `mod` 7.
Definition ts_month (t : Timestamp) : Z := snd (fst (civil_from_days (days_of t))).
Definition ts_day (t : Timestamp) : Z := snd (civil_from_days (days_of t)).

(** [timestamp.date()]: a calendar date, identified by its day number. *)
Definition ts_date (t : Timestamp) : Z := days_of t.

(** [pd.date_range(start, stop, freq='H')]: [start], [start + 1h], ... up
    to the last instant not after [stop]; empty when [stop < start]. *)
Definition date_range (start stop : Timestamp) : list Timestamp :=
  (fun k => start + 3600 * k) <$> seqZ 0 ((stop - start) `div` 3600 + 1).

(** ** Loops

    A Python [for] loop that updates local variables: the variables are
    the accumulator, the body is run on each element in order, and an
    exception in the body ends the loop. *)
Fixpoint for_loop {A S : Type} (xs : list A) (body : A -> S -> M S) (acc : S) : M S :=
  match xs with
  | [] => ret acc
  | x :: xs' => let* acc' := body x acc in for_loop xs' body acc'
  end.

(** ** Strings *)

(** [s.replace(old, new)] for one-character [old] and [new]. *)
Fixpoint str_replace_char (old new : Ascii.ascii) (s : string) : string :=
  match s with
  | EmptyString => EmptyString
  | String c s' =>
      String (if Ascii.eqb c old then new else c) (str_replace_char old new s')
  end.

Definition is_ascii_lower (c : Ascii.ascii) : bool :=
  let n := Ascii.nat_of_ascii c in Nat.leb 97 n && Nat.leb n 122.
Definition is_ascii_upper (c : Ascii.ascii) : bool :=
  let n := Ascii.nat_of_ascii c in Nat.leb 65 n && Nat.leb n 90.
Definition ascii_upper (c : Ascii.ascii) : Ascii.ascii :=
  if is_ascii_lower c then Ascii.ascii_of_nat (Ascii.nat_of_ascii c - 32) else c.
Definition ascii_lower (c : Ascii.ascii) : Ascii.ascii :=
  if is_ascii_upper c then Ascii.ascii_of_nat (Ascii.nat_of_ascii c + 32) else c.

(** [s.title()] on ASCII text: a letter that follows a letter is lowered,
    any other letter is raised. *)
Fixpoint str_title_from (previous_is_cased : bool) (s : string) : string :=
  match s with
  | EmptyString => EmptyString
  | String c s' =>
      String (if previous_is_cased then ascii_lower c else ascii_upper c)
             (str_title_from (is_ascii_lower c || is_ascii_upper c) s')
  end.
Definition str_title (s : string) : string := str_title_from false s.

(** ** Data model *)

(** An entry of [major_areas]. *)
Module Area.
Record t : Type := mk {
  name : string;
  lat : Q;
  lon : Q;
  type : string
}.
End Area.

(** An entry of [station_locations]. *)
Module Station.
Record t : Type := mk {
  station_id : Z;
  name : string;
  latitude : Q;
  longitude : Q;
  area_type : string;
  base_area : string
}.
End Station.

(** A value of [base_patterns]. *)
Module Pattern.
Record t : Type := mk {
  peak_hours : list Z;
  base_demand : Z
}.
End Pattern.

(** A row of the trip table. *)
Module Trip.
Record t : Type := mk {
  timestamp : Timestamp;
  station_id : Z;
  station_name : string;
  latitude : Q;
  longitude : Q;
  area_type : string;
  trip_count : Z;
  hour : Z;
  day_of_week : Z;
  month : Z;
  is_weekend : bool;
  is_holiday : bool;
  weather_factor : Q;
  seasonal_factor : Q;
  event_factor : Q
}.
End Trip.

(** A row of the events table. *)
Module Event.
Record t : Type := mk {
  date : Z;
  event_type : string;
  event_name : string;
  expected_attendance : Z;
  location : string
}.
End Event.

(** The attributes of a [MicroMobilityDataGenerator].  [base_patterns] is
    the same literal for every instance and is the constant below. *)
Record MicroMobilityDataGenerator : Type := mkGenerator {
  start_date : Timestamp;
  end_date : Timestamp;
  num_stations : Z;
  city_name : string;
  station_locations : list Station.t
}.

Definition base_patterns : gmap string Pattern.t :=
  list_to_map [
    ("business_district", Pattern.mk [8; 9; 17; 18] 25);
    ("residential", Pattern.mk [7; 8; 18; 19] 15);
    ("tourist", Pattern.mk [10; 11; 14; 15] 20);
    ("transport_hub", Pattern.mk [6; 7; 8; 17; 18; 19] 30);
    ("educational", Pattern.mk [8; 9; 16; 17] 18)
  ].

Definition major_areas : list Area.t := [
  Area.mk "Connaught Place" 28.6315%Q 77.2167%Q "business_district";
  Area.mk "India Gate" 28.6129%Q 77.2295%Q "tourist";
  Area.mk "Red Fort" 28.6562%Q 77.2410%Q "tourist";
  Area.mk "Karol Bagh" 28.6519%Q 77.1909%Q "business_district";
  Area.mk "Lajpat Nagar" 28.5677%Q 77.2353%Q "residential";
  Area.mk "Dwarka" 28.5921%Q 77.0460%Q "residential";
  Area.mk "Gurgaon Border" 28.4595%Q 77.0266%Q "transport_hub";
  Area.mk "Delhi University" 28.6857%Q 77.2085%Q "educational";
  Area.mk "JNU" 28.5383%Q 77.1641%Q "educational";
  Area.mk "Chandni Chowk" 28.6506%Q 77.2334%Q "business_district"
].

(** ** Station registry *)

Definition station_location_body (i : Z) (locations : list Station.t)
  : M (list Station.t) :=
  let* base_area := random_choice major_areas in
  let* lat_offset := random_uniform (-0.02)%Q 0.02%Q in
  let* lon_offset := random_uniform (-0.02)%Q 0.02%Q in
  ret (locations ++ [
    {| Station.station_id := i;
       Station.name := "Station_" +:+ pretty i +:+ "_"
                       +:+ str_replace_char " " "_" (Area.name base_area);
       Station.latitude := (Area.lat base_area + lat_offset)%Q;
       Station.longitude := (Area.lon base_area + lon_offset)%Q;
       Station.area_type := Area.type base_area;
       Station.base_area := Area.name base_area |} ]).

Definition _generate_station_locations (num_stations : Z) : M (list Station.t) :=
  for_loop (seqZ 0 num_stations) station_location_body [].

Definition __init__ (start_date end_date : Timestamp) (num_stations : Z)
  (city_name : string) : M MicroMobilityDataGenerator :=
  let* station_locations := _generate_station_locations num_stations in
  ret (mkGenerator start_date end_date num_stations city_name station_locations).

(** ** Factor model *)

(** The peak-hour multiplier of [_calculate_base_demand]: its
    [if]/[elif] chain, tested in the order of the source. *)
Definition hour_multiplier (hour : Z) (peak_hours : list Z) : Q :=
  if bool_decide (hour ∈ peak_hours) then 1.5%Q
  else if bool_decide (hour ∈ (fun hour => hour + 1) <$> peak_hours)
          || bool_decide (hour ∈ (fun hour => hour - 1) <$> peak_hours) then 1.2%Q
  else if (6 <=? hour) && (hour <=? 22) then 1.0%Q
  else 0.3%Q.

(** The weekend adjustment of [_calculate_base_demand], applied to the
    multiplier. *)
Definition weekend_adjustment (day_of_week : Z) (area_type : string)
  (multiplier : Q) : Q :=
  if 5 <=? day_of_week then
    if bool_decide (area_type ∈ ["business_district"; "educational"])
    then (multiplier * 0.6)%Q
    else if bool_decide (area_type = "tourist")
    then (multiplier * 1.3)%Q
    else multiplier
  else multiplier.

(** [self.base_patterns[area_type]] raises [KeyError] on an unknown
    archetype. *)
Definition _calculate_base_demand (hour day_of_week : Z) (area_type : string)
  : result Q :=
  match base_patterns !! area_type with
  | None => Raise KeyError
  | Some pattern =>
      let base := Pattern.base_demand pattern in
      let multiplier := hour_multiplier hour (Pattern.peak_hours pattern) in
      let multiplier := weekend_adjustment day_of_week area_type multiplier in
      Ok (inject_Z base * multiplier)%Q
  end.

Definition _get_weather_factor (timestamp : Timestamp) : M Q :=
  let month := ts_month timestamp in
  let temp_factor : Q :=
    if bool_decide (month ∈ [5; 6; 7]) then 0.7%Q
    else if bool_decide (month ∈ [12; 1; 2]) then 0.8%Q
    else 1.0%Q in
  let* rain_factor :=
    if bool_decide (month ∈ [7; 8; 9]) then
      let rain_chance : Q := 0.3%Q in
      let* r := random_random in
      ret (if Qlt_bool r rain_chance then 0.4%Q else 1.0%Q)
    else ret 1.0%Q in
  let aqi_factor : Q :=
    if bool_decide (month ∈ [10; 11; 12; 1]) then 0.9%Q else 1.0%Q in
  ret (temp_factor * rain_factor * aqi_factor)%Q.

Definition _get_seasonal_factor (timestamp : Timestamp) : Q :=
  let month := ts_month timestamp in
  if bool_decide (month ∈ [10; 11; 3; 4]) then 1.2%Q
  else if bool_decide (month ∈ [5; 6]) then 0.8%Q
  else if bool_decide (month ∈ [7; 8]) then 0.9%Q
  else 1.0%Q.

Definition _get_event_factor (timestamp : Timestamp) : M Q :=
  let* r := random_random in
  if Qlt_bool r 0.05%Q then random_uniform 1.2%Q 1.8%Q else ret 1.0%Q.

Definition _is_holiday (timestamp : Timestamp) : bool :=
  let holidays := [(1, 26); (8, 15); (10, 2); (12, 25)] in
  bool_decide ((ts_month timestamp, ts_day timestamp) ∈ holidays).

Definition _get_weather_condition (temp precipitation : Q) : string :=
  if Qlt_bool 5%Q precipitation then "rainy"
  else if Qlt_bool 35%Q temp then "hot"
  else if Qlt_bool temp 15%Q then "cold"
  else "pleasant".

(** ** Demand synthesizer *)

(** Python's [a / b] on integers. *)
Definition py_truediv (a b : Z) : result Q :=
  if b =? 0 then Raise ZeroDivisionError else Ok (inject_Z a / inject_Z b)%Q.

(** The progress indicator: the percentage is computed, then printed. *)
Definition progress_indicator (processed total_records : Z) : M unit :=
  if processed `mod` 10000 =? 0 then
    let* progress := lift (py_truediv processed total_records) in
    ret tt
  else ret tt.

(** The body of the inner loop, for one station; the loop variables are
    [trips] and [processed]. *)
Definition trip_station_body (timestamp : Timestamp) (hour day_of_week month : Z)
  (weather_factor seasonal_factor event_factor : Q)
  (station_info : Station.t) (vars : list Trip.t * Z) : M (list Trip.t * Z) :=
  let trips := fst vars in
  let processed := snd vars in
  let station_id := Station.station_id station_info in
  let area_type := Station.area_type station_info in
  let* base_demand := lift (_calculate_base_demand hour day_of_week area_type) in
  let final_demand :=
    (base_demand * weather_factor * seasonal_factor * event_factor)%Q in
  let* sample := np_random_poisson final_demand in
  let demand := Z.max 0 sample in
  ret (trips ++ [
        {| Trip.timestamp := timestamp;
           Trip.station_id := station_id;
           Trip.station_name := Station.name station_info;
           Trip.latitude := Station.latitude station_info;
           Trip.longitude := Station.longitude station_info;
           Trip.area_type := area_type;
           Trip.trip_count := demand;
           Trip.hour := hour;
           Trip.day_of_week := day_of_week;
           Trip.month := month;
           Trip.is_weekend := 5 <=? day_of_week;
           Trip.is_holiday := _is_holiday timestamp;
           Trip.weather_factor := weather_factor;
           Trip.seasonal_factor := seasonal_factor;
           Trip.event_factor := event_factor |} ],
       processed + 1).

(** The body of the outer loop, for one timestamp. *)
Definition trip_timestamp_body (self : MicroMobilityDataGenerator)
  (total_records : Z) (timestamp : Timestamp) (vars : list Trip.t * Z)
  : M (list Trip.t * Z) :=
  let hour := ts_hour timestamp in
  let day_of_week := ts_weekday timestamp in
  let month := ts_month timestamp in
  let* _ := progress_indicator (snd vars) total_records in
  let* weather_factor := _get_weather_factor timestamp in
  let seasonal_factor := _get_seasonal_factor timestamp in
  let* event_factor := _get_event_factor timestamp in
  for_loop (station_locations self)
    (trip_station_body timestamp hour day_of_week month
       weather_factor seasonal_factor event_factor)
    vars.

Definition generate_trip_data (self : MicroMobilityDataGenerator) : M (list Trip.t) :=
  let date_range := date_range (start_date self) (end_date self) in
  let total_records := Z.of_nat (length date_range) * num_stations self in
  let* vars := for_loop date_range (trip_timestamp_body self total_records) ([], 0) in
  ret (fst vars).

(** ** Events generator *)

(** [Series.unique()]: the distinct values, in order of first appearance. *)
Fixpoint unique_from (seen : list Z) (l : list Z) : list Z :=
  match l with
  | [] => []
  | x :: l' =>
      if bool_decide (x ∈ seen) then unique_from seen l'
      else x :: unique_from (x :: seen) l'
  end.
Definition unique (l : list Z) : list Z := unique_from [] l.

Definition event_types : list string :=
  ["concert"; "festival"; "sports"; "conference"; "exhibition"].

Definition event_date_body (self : MicroMobilityDataGenerator) (date : Z)
  (events_data : list Event.t) : M (list Event.t) :=
  let* r := random_random in
  if Qlt_bool r 0.1%Q then
    let* event_type := random_choice event_types in
    let* name_type := random_choice event_types in
    let* expected_attendance := random_randint 1000 50000 in
    let* location := random_choice (Station.base_area <$> station_locations self) in
    ret (events_data ++ [
          {| Event.date := date;
             Event.event_type := event_type;
             Event.event_name := "Delhi " +:+ str_title name_type +:+ " Event";
             Event.expected_attendance := expected_attendance;
             Event.location := location |} ])
  else ret events_data.

(** The table [generate_trip_data] returns is built from the list of its
    rows; built from the empty list it has no column, and selecting
    ['timestamp'] from it raises [KeyError]. *)
Definition generate_events_data (self : MicroMobilityDataGenerator)
  (trip_data : list Trip.t) : M (list Event.t) :=
  match trip_data with
  | [] => raise KeyError
  | _ :: _ =>
      let unique_dates := unique ((fun row => ts_date (Trip.timestamp row)) <$> trip_data) in
      for_loop unique_dates (event_date_body self) []
  end.

(** ** A sample run *)

Definition sample_state : RandomState :=
  mkRandomState (fun n => (inject_Z (Z.of_nat n) * 0.37 + 0.01)%Q) 0
                (fun n => Z.of_nat n - 2) 0.

Definition run {A} (c : M A) (s : RandomState) : result A :=
  match c s with
  | Ok (a, _) => Ok a
  | Raise e => Raise e
  end.


(** ** The base-demand rule as the specification words it

    Stated as relations, to be compared with [hour_multiplier] and
    [weekend_adjustment] above. *)

(** [hour] is exactly one hour before or after some peak hour. *)
Definition adjacent_to_peak (hour : Z) (peak_hours : list Z) : Prop :=
  exists p, p ∈ peak_hours /\ (hour = p - 1 \/ hour = p + 1).

Definition daytime (hour : Z) : Prop := 6 <= hour <= 22.

Inductive spec_hour_multiplier (hour : Z) (peak_hours : list Z) : Q -> Prop :=
  | spec_peak :
      hour ∈ peak_hours ->
      spec_hour_multiplier hour peak_hours 1.5%Q
  | spec_adjacent :
      hour ∉ peak_hours -> adjacent_to_peak hour peak_hours ->
      spec_hour_multiplier hour peak_hours 1.2%Q
  | spec_daytime :
      hour ∉ peak_hours -> ~ adjacent_to_peak hour peak_hours -> daytime hour ->
      spec_hour_multiplier hour peak_hours 1.0%Q
  | spec_night :
      hour ∉ peak_hours -> ~ adjacent_to_peak hour peak_hours -> ~ daytime hour ->
      spec_hour_multiplier hour peak_hours 0.3%Q.

Inductive spec_weekend_multiplier (day_of_week : Z) (area_type : string) : Q -> Prop :=
  | spec_weekend_less :
      5 <= day_of_week ->
      area_type = "business_district" \/ area_type = "educational" ->
      spec_weekend_multiplier day_of_week area_type 0.6%Q
  | spec_weekend_more :
      5 <= day_of_week -> area_type = "tourist" ->
      spec_weekend_multiplier day_of_week area_type 1.3%Q
  | spec_weekend_same :
      5 <= day_of_week ->
      area_type <> "business_district" -> area_type <> "educational" ->
      area_type <> "tourist" ->
      spec_weekend_multiplier day_of_week area_type 1%Q
  | spec_weekday :
      day_of_week < 5 ->
      spec_weekend_multiplier day_of_week area_type 1%Q.

(** ** The shape of the trip table

    [row_of] relates a trip row to the timestamp, the factors and the
    station it was built from; [block_of] describes the consecutive rows
    emitted for one timestamp: one row per station, in registry order, all
    carrying the factors drawn for that timestamp. *)
Definition row_of (timestamp : Timestamp) (wf sf ef : Q)
  (station_info : Station.t) (row : Trip.t) : Prop :=
  Trip.timestamp row = timestamp
  /\ Trip.station_id row = Station.station_id station_info
  /\ Trip.area_type row = Station.area_type station_info
  /\ Trip.hour row = ts_hour timestamp
  /\ Trip.weather_factor row = wf
  /\ Trip.seasonal_factor row = sf
  /\ Trip.event_factor row = ef
  /\ 0 <= Trip.trip_count row.

Definition block_of (stations : list Station.t) (timestamp : Timestamp)
  (block : list Trip.t) : Prop :=
  exists wf sf ef, Forall2 (row_of timestamp wf sf ef) stations block.

(** The key of a trip row. *)
Definition trip_key (row : Trip.t) : Timestamp * Z :=
  (Trip.timestamp row, Trip.station_id row).

(** The stations whose archetype has a profile entry. *)
Definition known_area (station_info : Station.t) : Prop :=
  is_Some (base_patterns !! Station.area_type station_info).

(** A generator with two hand-written stations, for concrete runs. *)
Definition sample_generator : MicroMobilityDataGenerator :=
  mkGenerator (mkTimestamp 2024 7 1 0 0 0) (mkTimestamp 2024 7 1 2 0 0) 2 "Delhi"
    [ Station.mk 0 "Station_0_India_Gate" 28.6%Q 77.2%Q "tourist" "India Gate";
      Station.mk 1 "Station_1_JNU" 28.5%Q 77.1%Q "educational" "JNU" ].

(** A station built from an anchor of the catalogue. *)
Definition from_catalogue (station_info : Station.t) : Prop :=
  exists area, area ∈ major_areas
               /\ Station.area_type station_info = Area.type area
               /\ Station.base_area station_info = Area.name area.

(** Construct a generator and generate its trip table, as [main] does. *)
Definition construct_and_generate (start_date end_date : Timestamp)
  (num_stations : Z) (city_name : string) : M (list Trip.t) :=
  let* generator := __init__ start_date end_date num_stations city_name in
  generate_trip_data generator.

(** The keys of the table over given timestamps and stations, in
    timestamp-major, station-minor order. *)
Definition table_keys (timestamps : list Timestamp) (stations : list Station.t)
  : list (Timestamp * Z) :=
  timestamps ≫= fun t => (fun st => (t, Station.station_id st)) <$> stations.

(** ** Weather generator *)

(** A row of the weather table. *)
Module Weather.
Record t : Type := mk {
  timestamp : Timestamp;
  temperature : Q;
  humidity : Q;
  wind_speed : Q;
  precipitation : Q;
  aqi : Z;
  weather_condition : string
}.
End Weather.

(** Rounding to the nearest integer, a tie going to the even neighbour. *)
Definition round_half_even (q : Q) : Z :=
  let f := Qfloor q in
  let d := (q - inject_Z f)%Q in
  if Qlt_bool d 0.5%Q then f
  else if Qlt_bool 0.5%Q d then f + 1
  else if Z.even f then f else f + 1.

(** [round(x, 1)]: the nearest multiple of one tenth. *)
Definition py_round1 (x : Q) : Q :=
  (inject_Z (round_half_even (x * 10)) / 10)%Q.

(** The body of the loop of [generate_weather_data], for one trip row. *)
Definition weather_row_body (row : Trip.t) (weather_data : list Weather.t)
  : M (list Weather.t) :=
  let timestamp := Trip.timestamp row in
  let month := ts_month timestamp in
  let* temp_humidity :=
    if bool_decide (month ∈ [5; 6; 7]) then
      let* temp := random_uniform 35%Q 45%Q in
      let* humidity := random_uniform 30%Q 60%Q in
      ret (temp, humidity)
    else if bool_decide (month ∈ [12; 1; 2]) then
      let* temp := random_uniform 8%Q 20%Q in
      let* humidity := random_uniform 50%Q 80%Q in
      ret (temp, humidity)
    else
      let* temp := random_uniform 20%Q 35%Q in
      let* humidity := random_uniform 40%Q 70%Q in
      ret (temp, humidity) in
  let temp := fst temp_humidity in
  let humidity := snd temp_humidity in
  let* wind_speed := random_uniform 5%Q 25%Q in
  let* precipitation :=
    if bool_decide (month ∈ [7; 8; 9]) then
      let* r := random_random in
      if Qlt_bool r 0.4%Q then random_uniform 0%Q 20%Q else ret 0%Q
    else
      let* r := random_random in
      if Qlt_bool r 0.1%Q then random_uniform 0%Q 2%Q else ret 0%Q in
  let* aqi := random_randint 50 300 in
  ret (weather_data ++ [
        {| Weather.timestamp := timestamp;
           Weather.temperature := py_round1 temp;
           Weather.humidity := py_round1 humidity;
           Weather.wind_speed := py_round1 wind_speed;
           Weather.precipitation := py_round1 precipitation;
           Weather.aqi := aqi;
           Weather.weather_condition := _get_weather_condition temp precipitation |} ]).

Definition generate_weather_data (trip_data : list Trip.t) : M (list Weather.t) :=
  for_loop trip_data weather_row_body [].

(** ** The generation steps of [main]

    [main] constructs a generator, generates the three tables and hands
    them to [save_data]; the steps before [save_data], for given
    constructor arguments. *)
Definition generation_steps (start_date end_date : Timestamp) (num_stations : Z)
  (city_name : string) : M (list Trip.t * list Weather.t * list Event.t) :=
  let* generator := __init__ start_date end_date num_stations city_name in
  let* trip_data := generate_trip_data generator in
  let* weather_data := generate_weather_data trip_data in
  let* events_data := generate_events_data generator trip_data in
  ret (trip_data, weather_data, events_data).

(** The tables of [main]: the arguments it passes to the constructor. *)
Definition main_tables : M (list Trip.t * list Weather.t * list Event.t) :=
  generation_steps (mkTimestamp 2024 1 1 0 0 0) (mkTimestamp 2024 12 31 0 0 0)
    50 "Delhi".

(** ** Predicates used by the properties below *)

(** The five archetypes of [base_patterns]. *)
Definition archetypes : list string :=
  ["business_district"; "residential"; "tourist"; "transport_hub"; "educational"].

(** A trip row whose derived fields agree with its timestamp and with the
    station it was built from. *)
Definition row_consistent (stations : list Station.t) (row : Trip.t) : Prop :=
  Trip.hour row = ts_hour (Trip.timestamp row)
  /\ Trip.day_of_week row = ts_weekday (Trip.timestamp row)
  /\ Trip.month row = ts_month (Trip.timestamp row)
  /\ Trip.is_weekend row = (5 <=? ts_weekday (Trip.timestamp row))
  /\ Trip.is_holiday row = _is_holiday (Trip.timestamp row)
  /\ Trip.seasonal_factor row = _get_seasonal_factor (Trip.timestamp row)
  /\ exists station_info,
       station_info ∈ stations
       /\ Trip.station_id row = Station.station_id station_info
       /\ Trip.station_name row = Station.name station_info
       /\ Trip.latitude row = Station.latitude station_info
       /\ Trip.longitude row = Station.longitude station_info
       /\ Trip.area_type row = Station.area_type station_info.

(** A station placed within the jitter of an anchor and named after it. *)
Definition near_anchor (station_info : Station.t) : Prop :=
  exists area,
    area ∈ major_areas
    /\ Station.area_type station_info = Area.type area
    /\ Station.base_area station_info = Area.name area
    /\ Station.name station_info
       = "Station_" +:+ pretty (Station.station_id station_info) +:+ "_"
         +:+ str_replace_char " " "_" (Area.name area)
    /\ (Area.lat area - 0.02 <= Station.latitude station_info)%Q
    /\ (Station.latitude station_info <= Area.lat area + 0.02)%Q
    /\ (Area.lon area - 0.02 <= Station.longitude station_info)%Q
    /\ (Station.longitude station_info <= Area.lon area + 0.02)%Q.

(** The ranges the weather generator samples from, by month. *)
Definition weather_row_in_range (w : Weather.t) : Prop :=
  let month := ts_month (Weather.timestamp w) in
  (month ∈ [5; 6; 7] ->
     (35 <= Weather.temperature w <= 45)%Q /\ (30 <= Weather.humidity w <= 60)%Q)
  /\ (month ∈ [12; 1; 2] ->
     (8 <= Weather.temperature w <= 20)%Q /\ (50 <= Weather.humidity w <= 80)%Q)
  /\ (month ∉ [5; 6; 7] -> month ∉ [12; 1; 2] ->
     (20 <= Weather.temperature w <= 35)%Q /\ (40 <= Weather.humidity w <= 70)%Q)
  /\ (5 <= Weather.wind_speed w <= 25)%Q
  /\ (month ∈ [7; 8; 9] -> (0 <= Weather.precipitation w <= 20)%Q)
  /\ (month ∉ [7; 8; 9] -> (0 <= Weather.precipitation w <= 2)%Q)
  /\ 50 <= Weather.aqi w <= 300
  /\ Weather.weather_condition w ∈ ["rainy"; "hot"; "cold"; "pleasant"].

(** An event row whose fields come from the catalogue and the registry. *)
Definition event_in_range (self : MicroMobilityDataGenerator) (event : Event.t) : Prop :=
  Event.event_type event ∈ event_types
  /\ (exists name_type, name_type ∈ event_types
        /\ Event.event_name event = "Delhi " +:+ str_title name_type +:+ " Event")
  /\ 1000 <= Event.expected_attendance event <= 50000
  /\ Event.location event ∈ Station.base_area <$> station_locations self.

(** The row [generate_trip_data] appends for a timestamp, the factors of
    that timestamp, a station and a Poisson sample. *)
Definition trip_row (timestamp : Timestamp) (weather_factor seasonal_factor event_factor : Q)
  (station_info : Station.t) (sample : Z) : Trip.t :=
  {| Trip.timestamp := timestamp;
     Trip.station_id := Station.station_id station_info;
     Trip.station_name := Station.name station_info;
     Trip.latitude := Station.latitude station_info;
     Trip.longitude := Station.longitude station_info;
     Trip.area_type := Station.area_type station_info;
     Trip.trip_count := Z.max 0 sample;
     Trip.hour := ts_hour timestamp;
     Trip.day_of_week := ts_weekday timestamp;
     Trip.month := ts_month timestamp;
     Trip.is_weekend := 5 <=? ts_weekday timestamp;
     Trip.is_holiday := _is_holiday timestamp;
     Trip.weather_factor := weather_factor;
     Trip.seasonal_factor := seasonal_factor;
     Trip.event_factor := event_factor |}.

(** A row built from a timestamp of the range, factors the factor model
    returned for that timestamp, and a station of the registry. *)
Definition row_built (self : MicroMobilityDataGenerator) (row : Trip.t) : Prop :=
  exists timestamp s1 s1' wf s2 s2' ef station_info sample,
    timestamp ∈ date_range (start_date self) (end_date self)
    /\ _get_weather_factor timestamp s1 = Ok (wf, s1')
    /\ _get_event_factor timestamp s2 = Ok (ef, s2')
    /\ station_info ∈ station_locations self
    /\ row = trip_row timestamp wf (_get_seasonal_factor timestamp) ef station_info sample.

(** The numpy stream as [generate_trip_data] leaves it after emitting
    [trips] from the state [s0]: one cell consumed per row, in row order,
    each row holding the clamp of its cell. *)
Definition counts_follow_draws (s0 : RandomState) (trips : list Trip.t)
  (s : RandomState) : Prop :=
  np_tape s = np_tape s0
  /\ np_pos s = (np_pos s0 + length trips)%nat
  /\ forall i row, trips !! i = Some row ->
       Trip.trip_count row = Z.max 0 (np_tape s0 (np_pos s0 + i)%nat).

(** A generator with a station whose area type is no archetype. *)
Definition stray_generator : MicroMobilityDataGenerator :=
  mkGenerator (mkTimestamp 2024 7 1 0 0 0) (mkTimestamp 2024 7 1 2 0 0) 2 "Delhi"
    [ Station.mk 0 "Station_0_India_Gate" 28.6%Q 77.2%Q "tourist" "India Gate";
      Station.mk 1 "Station_1_Okhla" 28.5%Q 77.3%Q "industrial" "Okhla" ].

(** The ranges of the values sampled for a weather row, before rounding. *)
Definition sampled_in_range (month : Z) (temp humidity wind_speed precipitation : Q)
  : Prop :=
  (month ∈ [5; 6; 7] -> (35 <= temp <= 45)%Q /\ (30 <= humidity <= 60)%Q)
  /\ (month ∉ [5; 6; 7] -> month ∈ [12; 1; 2] ->
        (8 <= temp <= 20)%Q /\ (50 <= humidity <= 80)%Q)
  /\ (month ∉ [5; 6; 7] -> month ∉ [12; 1; 2] ->
        (20 <= temp <= 35)%Q /\ (40 <= humidity <= 70)%Q)
  /\ (5 <= wind_speed <= 25)%Q
  /\ (month ∈ [7; 8; 9] -> (0 <= precipitation <= 20)%Q)
  /\ (month ∉ [7; 8; 9] -> (0 <= precipitation <= 2)%Q).

(** The weather row appended for a trip row: the sampled values rounded to
    one decimal, the condition computed from the values as sampled. *)
Definition weather_row_of (row : Trip.t) (w : Weather.t) : Prop :=
  exists temp humidity wind_speed precipitation,
    sampled_in_range (ts_month (Trip.timestamp row)) temp humidity wind_speed precipitation
    /\ Weather.timestamp w = Trip.timestamp row
    /\ Weather.temperature w = py_round1 temp
    /\ Weather.humidity w = py_round1 humidity
    /\ Weather.wind_speed w = py_round1 wind_speed
    /\ Weather.precipitation w = py_round1 precipitation
    /\ 50 <= Weather.aqi w <= 300
    /\ Weather.weather_condition w = _get_weather_condition temp precipitation.

(** The months in which each weather condition can be reported. *)
Definition condition_fits_month (w : Weather.t) : Prop :=
  let month := ts_month (Weather.timestamp w) in
  (Weather.weather_condition w = "rainy" -> month ∈ [7; 8; 9])
  /\ (Weather.weather_condition w = "hot" -> month ∈ [5; 6; 7])
  /\ (Weather.weather_condition w = "cold" -> month ∈ [12; 1; 2]).

(** What a reported condition says of the stored, rounded readings. *)
Definition condition_fits_reading (w : Weather.t) : Prop :=
  (Weather.weather_condition w = "rainy" -> (5 <= Weather.precipitation w)%Q)
  /\ (Weather.weather_condition w = "hot" ->
        (35 <= Weather.temperature w)%Q /\ (Weather.precipitation w <= 5)%Q)
  /\ (Weather.weather_condition w = "cold" ->
        (Weather.temperature w <= 15)%Q /\ (Weather.precipitation w <= 5)%Q)
  /\ (Weather.weather_condition w = "pleasant" ->
        (15 <= Weather.temperature w <= 35)%Q /\ (Weather.precipitation w <= 5)%Q).

(** A computation that returns from every state. *)
Definition returns {A} (c : M A) : Prop :=
  forall s, exists a s', c s = Ok (a, s').

(** A trip row of a July morning, for concrete runs. *)
Definition sample_trip_row : Trip.t :=
  trip_row (mkTimestamp 2024 7 1 9 0 0) 0.7%Q 0.9%Q 1.0%Q
    (Station.mk 0 "Station_0_India_Gate" 28.6%Q 77.2%Q "tourist" "India Gate") 4.
(** * Properties *)

(** ** Sanity checks of the calendar and string helpers *)

Example date_2024_01_01 :
  civil_from_days (days_of (mkTimestamp 2024 1 1 0 0 0)) = (2024, 1, 1)
  /\ ts_weekday (mkTimestamp 2024 1 1 0 0 0) = 0
  /\ ts_hour (mkTimestamp 2024 12 31 17 30 0) = 17
  /\ ts_month (mkTimestamp 2024 12 31 17 30 0) = 12
  /\ ts_day (mkTimestamp 2024 2 29 23 0 0) = 29
  /\ ts_weekday (mkTimestamp 2024 3 2 9 0 0) = 5.
Proof. vm_compute. repeat split. Qed.

Example str_examples :
  str_replace_char " "%char "_"%char "Connaught Place" = "Connaught_Place"
  /\ str_title "concert" = "Concert"
  /\ str_title "hello wORLD" = "Hello World".
Proof. vm_compute. repeat split. Qed.

(** ** Comparisons *)

Lemma Qlt_bool_iff (x y : Q) : Qlt_bool x y = true <-> (x < y)%Q.
Proof.
  unfold Qlt_bool. rewrite negb_true_iff.
  destruct (Qle_bool y x) eqn:E.
  - apply Qle_bool_iff in E. split; [discriminate | intros H; lra].
  - split; [intros _ | reflexivity].
    destruct (Qlt_le_dec x y) as [H | H]; [exact H |].
    apply Qle_bool_iff in H. congruence.
Qed.

Lemma Qlt_bool_false_iff (x y : Q) : Qlt_bool x y = false <-> (y <= x)%Q.
Proof.
  unfold Qlt_bool. rewrite negb_false_iff. apply Qle_bool_iff.
Qed.

(** ** The monad and the loops *)

Lemma bind_Ok {A B} (c : M A) (k : A -> M B) s b s' :
  bind c k s = Ok (b, s') ->
  exists a s1, c s = Ok (a, s1) /\ k a s1 = Ok (b, s').
Proof.
  unfold bind. destruct (c s) as [[a s1] | e]; [| discriminate].
  intros H. exists a, s1. split; [reflexivity | exact H].
Qed.

Lemma lift_Ok {A} (r : result A) s a s' :
  lift r s = Ok (a, s') -> r = Ok a /\ s' = s.
Proof.
  unfold lift. destruct r; [| discriminate].
  intros H. injection H as -> ->. split; reflexivity.
Qed.

Lemma ret_Ok {A} (a : A) s b s' : ret a s = Ok (b, s') -> b = a /\ s' = s.
Proof. unfold ret. intros H. injection H as -> ->. split; reflexivity. Qed.

(** Decompose a run of monadic code that returned. *)
Ltac inv_run :=
  repeat match goal with
  | H : bind _ _ _ = Ok (_, _) |- _ =>
      let a := fresh "a" in let s := fresh "s" in
      let H1 := fresh "Hrun" in let H2 := fresh "Hrun" in
      apply bind_Ok in H; destruct H as (a & s & H1 & H2)
  | H : lift _ _ = Ok (_, _) |- _ =>
      let H1 := fresh "Hval" in
      apply lift_Ok in H; destruct H as [H1 ->]
  | H : ret _ _ = Ok (_, _) |- _ =>
      apply ret_Ok in H; destruct H as [-> ->]
  end.

(** Partial correctness of a loop: an invariant over the elements already
    processed, the loop variables and the random state. *)
Lemma for_loop_inv {A S} (body : A -> S -> M S) (xs : list A)
  (I : list A -> S -> RandomState -> Prop) :
  (forall done x rest acc s acc' s',
      xs = done ++ x :: rest -> I done acc s ->
      body x acc s = Ok (acc', s') -> I (done ++ [x]) acc' s') ->
  forall acc s r s',
    I [] acc s -> for_loop xs body acc s = Ok (r, s') -> I xs r s'.
Proof.
  intros Hstep.
  assert (Hgen : forall rest done acc s r s',
             xs = done ++ rest -> I done acc s ->
             for_loop rest body acc s = Ok (r, s') -> I xs r s').
  { induction rest as [| x rest IH]; intros done acc s r s' Hxs HI Hrun.
    - simpl in Hrun. apply ret_Ok in Hrun as [-> ->].
      rewrite app_nil_r in Hxs. subst xs. exact HI.
    - simpl in Hrun. apply bind_Ok in Hrun as (acc1 & s1 & Hbody & Hrest).
      apply (IH (done ++ [x]) acc1 s1 r s'); [| | exact Hrest].
      + rewrite <- app_assoc. exact Hxs.
      + eapply Hstep; eauto. }
  intros acc s r s' HI Hrun. eapply (Hgen xs []); eauto.
Qed.

(** Total correctness of a loop: when the body returns under the invariant,
    so does the loop. *)
Lemma for_loop_total {A S} (body : A -> S -> M S) (xs : list A)
  (I : list A -> S -> RandomState -> Prop) :
  (forall done x rest acc s,
      xs = done ++ x :: rest -> I done acc s ->
      exists acc' s', body x acc s = Ok (acc', s') /\ I (done ++ [x]) acc' s') ->
  forall acc s,
    I [] acc s -> exists r s', for_loop xs body acc s = Ok (r, s') /\ I xs r s'.
Proof.
  intros Hstep.
  assert (Hgen : forall rest done acc s,
             xs = done ++ rest -> I done acc s ->
             exists r s', for_loop rest body acc s = Ok (r, s') /\ I xs r s').
  { induction rest as [| x rest IH]; intros done acc s Hxs HI.
    - exists acc, s. rewrite app_nil_r in Hxs. subst xs. split; [reflexivity | exact HI].
    - destruct (Hstep done x rest acc s Hxs HI) as (acc1 & s1 & Hbody & HI1).
      destruct (IH (done ++ [x]) acc1 s1) as (r & s' & Hrun & HIr).
      + rewrite <- app_assoc. exact Hxs.
      + exact HI1.
      + exists r, s'. split; [| exact HIr].
        simpl. unfold bind. rewrite Hbody. exact Hrun. }
  intros acc s HI. apply (Hgen xs []); [reflexivity | exact HI].
Qed.

(** ** Random draws *)

Lemma frac_range (q : Q) : (0 <= frac q)%Q /\ (frac q < 1)%Q.
Proof.
  unfold frac. pose proof (Qfloor_le q) as Hle. pose proof (Qlt_floor q) as Hlt.
  rewrite inject_Z_plus in Hlt. change (inject_Z 1) with 1%Q in Hlt.
  split; lra.
Qed.

Lemma random_random_Ok s :
  exists r s', random_random s = Ok (r, s') /\ (0 <= r)%Q /\ (r < 1)%Q.
Proof.
  eexists _, _. split; [reflexivity |]. apply frac_range.
Qed.

Lemma random_random_range s r s' :
  random_random s = Ok (r, s') -> (0 <= r)%Q /\ (r < 1)%Q.
Proof.
  unfold random_random. intros H. injection H as <- _. apply frac_range.
Qed.

Lemma random_uniform_Ok (a b : Q) s :
  (a <= b)%Q ->
  exists x s', random_uniform a b s = Ok (x, s') /\ (a <= x)%Q /\ (x <= b)%Q.
Proof.
  intros Hab. unfold random_uniform, bind, ret.
  destruct (random_random_Ok s) as (r & s' & -> & H0 & H1).
  exists (a + (b - a) * r)%Q, s'. split; [reflexivity |]. split; nra.
Qed.

Lemma randbelow_Ok (n : Z) s :
  0 < n ->
  exists i s', randbelow n s = Ok (i, s') /\ 0 <= i < n.
Proof.
  intros Hn. unfold randbelow, bind, ret.
  destruct (random_random_Ok s) as (r & s' & -> & H0 & H1).
  exists (Qfloor (r * inject_Z n)), s'. split; [reflexivity |].
  assert (Hn' : (0 < inject_Z n)%Q) by (change 0%Q with (inject_Z 0); rewrite <- Zlt_Qlt; exact Hn).
  split.
  - change 0 with (Qfloor (inject_Z 0)) at 1. apply Qfloor_resp_le.
    change (inject_Z 0) with 0%Q. nra.
  - apply Z.lt_nge. intros Hge.
    pose proof (Qfloor_le (r * inject_Z n)) as Hfl.
    rewrite Zle_Qle in Hge. nra.
Qed.

Lemma random_choice_Ok {A} (seq : list A) s :
  seq <> [] ->
  exists x s', random_choice seq s = Ok (x, s') /\ x ∈ seq.
Proof.
  intros Hne. destruct seq as [| y seq']; [congruence |].
  unfold random_choice.
  destruct (randbelow_Ok (Z.of_nat (length (y :: seq'))) s) as (i & s' & Hi & Hrange).
  { simpl. lia. }
  unfold bind. rewrite Hi.
  destruct (lookup_lt_is_Some_2 (y :: seq') (Z.to_nat i)) as [x Hx]; [lia |].
  rewrite Hx. exists x, s'. split; [reflexivity |].
  eapply list_elem_of_lookup_2; eauto.
Qed.

Lemma random_choice_elem {A} (seq : list A) s x s' :
  random_choice seq s = Ok (x, s') -> x ∈ seq.
Proof.
  destruct seq as [| y seq']; [discriminate |].
  unfold random_choice. intros H. inv_run.
  destruct (_ !! _) eqn:Hx in Hrun0; [| discriminate].
  apply ret_Ok in Hrun0 as [-> ->]. eapply list_elem_of_lookup_2; eauto.
Qed.

(** Case analysis on membership in a list literal. *)
Ltac elem_cases H :=
  repeat (apply elem_of_cons in H; destruct H as [H | H]);
  try (apply elem_of_nil in H; contradiction);
  try subst.

(** ** Factor model: base demand *)

Lemma adjacent_to_peak_iff (hour : Z) (peak_hours : list Z) :
  adjacent_to_peak hour peak_hours <->
  hour ∈ (fun hour => hour + 1) <$> peak_hours
  \/ hour ∈ (fun hour => hour - 1) <$> peak_hours.
Proof.
  unfold adjacent_to_peak. rewrite !list_elem_of_fmap. split.
  - intros (p & Hp & [-> | ->]); [right | left]; exists p; auto.
  - intros [(p & -> & Hp) | (p & -> & Hp)]; exists p; auto.
Qed.

(** The multiplier of the code is the one the specification describes. *)
Lemma hour_multiplier_spec (hour : Z) (peak_hours : list Z) :
  spec_hour_multiplier hour peak_hours (hour_multiplier hour peak_hours).
Proof.
  unfold hour_multiplier.
  case_bool_decide as Hpeak; [constructor; exact Hpeak |].
  destruct (bool_decide (hour ∈ (fun hour => hour + 1) <$> peak_hours)
            || bool_decide (hour ∈ (fun hour => hour - 1) <$> peak_hours)) eqn:Hadj.
  - apply spec_adjacent; [exact Hpeak |]. apply adjacent_to_peak_iff.
    apply orb_true_iff in Hadj as [H | H]; apply bool_decide_eq_true in H; auto.
  - assert (Hnadj : ~ adjacent_to_peak hour peak_hours).
    { rewrite adjacent_to_peak_iff. apply orb_false_iff in Hadj as [H1 H2].
      apply bool_decide_eq_false in H1, H2. tauto. }
    destruct ((6 <=? hour) && (hour <=? 22)) eqn:Hday.
    + apply spec_daytime; auto. unfold daytime. lia.
    + apply spec_night; auto. unfold daytime. lia.
Qed.

Lemma weekend_adjustment_spec (day_of_week : Z) (area_type : string) (multiplier : Q) :
  exists w, spec_weekend_multiplier day_of_week area_type w
            /\ (weekend_adjustment day_of_week area_type multiplier == multiplier * w)%Q.
Proof.
  unfold weekend_adjustment. destruct (5 <=? day_of_week) eqn:Hd.
  - apply Z.leb_le in Hd. case_bool_decide as Hb.
    + exists 0.6%Q. split; [| reflexivity]. apply spec_weekend_less; [exact Hd |].
      rewrite !elem_of_cons in Hb. destruct Hb as [Hb | [Hb | Hb]]; auto.
      inversion Hb.
    + case_bool_decide as Ht.
      * exists 1.3%Q. split; [| reflexivity]. apply spec_weekend_more; auto.
      * exists 1%Q. split; [| ring]. rewrite !elem_of_cons in Hb.
        apply spec_weekend_same; auto; intros ->; apply Hb; auto.
  - apply Z.leb_gt in Hd. exists 1%Q. split; [| ring]. apply spec_weekday. exact Hd.
Qed.

(** The multipliers are positive, whatever the hour, day and archetype. *)
Lemma spec_hour_multiplier_pos hour peak_hours m :
  spec_hour_multiplier hour peak_hours m -> (0 < m)%Q.
Proof. destruct 1; reflexivity. Qed.

Lemma spec_weekend_multiplier_pos day_of_week area_type w :
  spec_weekend_multiplier day_of_week area_type w -> (0 < w)%Q.
Proof. destruct 1; reflexivity. Qed.

(** The weekend multiplier depends on the day and the archetype only. *)
Lemma spec_weekend_multiplier_fun day_of_week area_type w1 w2 :
  spec_weekend_multiplier day_of_week area_type w1 ->
  spec_weekend_multiplier day_of_week area_type w2 -> w1 = w2.
Proof.
  destruct 1; destruct 1; try reflexivity; try lia; try congruence;
    repeat match goal with H : _ \/ _ |- _ => destruct H end; congruence.
Qed.

Lemma base_patterns_lookup (area_type : string) (pattern : Pattern.t) :
  base_patterns !! area_type = Some pattern ->
  (area_type, pattern) ∈
    [ ("business_district", Pattern.mk [8; 9; 17; 18] 25);
      ("residential", Pattern.mk [7; 8; 18; 19] 15);
      ("tourist", Pattern.mk [10; 11; 14; 15] 20);
      ("transport_hub", Pattern.mk [6; 7; 8; 17; 18; 19] 30);
      ("educational", Pattern.mk [8; 9; 16; 17] 18) ].
Proof. unfold base_patterns. apply elem_of_list_to_map_2. Qed.

Lemma base_patterns_base_pos (area_type : string) (pattern : Pattern.t) :
  base_patterns !! area_type = Some pattern -> 0 < Pattern.base_demand pattern.
Proof.
  intros H. apply base_patterns_lookup in H.
  repeat (apply elem_of_cons in H as [H | H]; [injection H as -> ->; simpl; lia |]).
  inversion H.
Qed.

(** What [_calculate_base_demand] returns for an archetype of the table. *)
Lemma _calculate_base_demand_Ok hour day_of_week area_type pattern :
  base_patterns !! area_type = Some pattern ->
  exists m w v,
    spec_hour_multiplier hour (Pattern.peak_hours pattern) m
    /\ spec_weekend_multiplier day_of_week area_type w
    /\ _calculate_base_demand hour day_of_week area_type = Ok v
    /\ (v == inject_Z (Pattern.base_demand pattern) * m * w)%Q.
Proof.
  intros Hp.
  destruct (weekend_adjustment_spec day_of_week area_type
              (hour_multiplier hour (Pattern.peak_hours pattern))) as (w & Hw & Heq).
  exists (hour_multiplier hour (Pattern.peak_hours pattern)), w.
  eexists. split; [apply hour_multiplier_spec |]. split; [exact Hw |].
  unfold _calculate_base_demand. rewrite Hp. split; [reflexivity |].
  rewrite Heq. ring.
Qed.

(** C3: for an archetype with a profile entry, [_calculate_base_demand]
    returns the profile's base demand times the hour multiplier (1.5 at a
    peak hour, else 1.2 one hour before or after a peak hour, else 1.0
    from 6 to 22, else 0.3) times the weekend multiplier (on days 5 and 6:
    0.6 for business_district and educational, 1.3 for tourist, 1 for the
    others; 1 on days 0 to 4).  It holds for every integer hour and day,
    in particular for hours 0..23 and days 0..6. *)
Theorem base_demand_priority_rule (hour day_of_week : Z) (area_type : string)
  (pattern : Pattern.t) :
  0 <= hour <= 23 -> 0 <= day_of_week <= 6 ->
  base_patterns !! area_type = Some pattern ->
  exists m w v,
    spec_hour_multiplier hour (Pattern.peak_hours pattern) m
    /\ spec_weekend_multiplier day_of_week area_type w
    /\ _calculate_base_demand hour day_of_week area_type = Ok v
    /\ (v == inject_Z (Pattern.base_demand pattern) * m * w)%Q.
Proof. intros _ _. apply _calculate_base_demand_Ok. Qed.

Lemma base_demand_priority_rule_witness :
  exists m w v,
    spec_hour_multiplier 9 [8; 9; 17; 18] m
    /\ spec_weekend_multiplier 6 "business_district" w
    /\ _calculate_base_demand 9 6 "business_district" = Ok v
    /\ (v == inject_Z 25 * m * w)%Q.
Proof.
  apply (base_demand_priority_rule 9 6 "business_district" (Pattern.mk [8; 9; 17; 18] 25));
    [lia | lia | vm_compute; reflexivity].
Defined.

(** The hour multiplier at an hour adjacent to a peak hour is 1.2, or 1.5
    when that hour is a peak hour itself. *)
Lemma hour_multiplier_adjacent hour peak_hours :
  adjacent_to_peak hour peak_hours ->
  hour_multiplier hour peak_hours = 1.5%Q \/ hour_multiplier hour peak_hours = 1.2%Q.
Proof.
  intros Hadj. destruct (hour_multiplier_spec hour peak_hours); auto; contradiction.
Qed.

(** C6: for a fixed archetype and day of week, the base demand at a peak
    hour is at least the one at an hour adjacent to a peak hour, which is
    at least the one at a generic daytime hour (6..22, neither peak nor
    adjacent), which is strictly above the one at a night hour (outside
    6..22, neither peak nor adjacent). *)
Theorem base_demand_hour_class_order (area_type : string) (pattern : Pattern.t)
  (day_of_week h_peak h_adjacent h_day h_night : Z) :
  base_patterns !! area_type = Some pattern ->
  h_peak ∈ Pattern.peak_hours pattern ->
  adjacent_to_peak h_adjacent (Pattern.peak_hours pattern) ->
  daytime h_day -> h_day ∉ Pattern.peak_hours pattern ->
  ~ adjacent_to_peak h_day (Pattern.peak_hours pattern) ->
  ~ daytime h_night -> h_night ∉ Pattern.peak_hours pattern ->
  ~ adjacent_to_peak h_night (Pattern.peak_hours pattern) ->
  exists v_peak v_adjacent v_day v_night,
    _calculate_base_demand h_peak day_of_week area_type = Ok v_peak
    /\ _calculate_base_demand h_adjacent day_of_week area_type = Ok v_adjacent
    /\ _calculate_base_demand h_day day_of_week area_type = Ok v_day
    /\ _calculate_base_demand h_night day_of_week area_type = Ok v_night
    /\ (v_adjacent <= v_peak)%Q /\ (v_day <= v_adjacent)%Q
    /\ (v_night <= v_day)%Q /\ (v_night < v_day)%Q.
Proof.
  intros Hp Hpeak Hadj Hday Hday1 Hday2 Hnight Hnight1 Hnight2.
  pose proof (base_patterns_base_pos _ _ Hp) as Hbase.
  assert (Hb : (0 < inject_Z (Pattern.base_demand pattern))%Q).
  { change 0%Q with (inject_Z 0). rewrite <- Zlt_Qlt. exact Hbase. }
  destruct (_calculate_base_demand_Ok h_peak day_of_week _ _ Hp)
    as (m1 & w1 & v1 & Hm1 & Hw1 & Hv1 & E1).
  destruct (_calculate_base_demand_Ok h_adjacent day_of_week _ _ Hp)
    as (m2 & w2 & v2 & Hm2 & Hw2 & Hv2 & E2).
  destruct (_calculate_base_demand_Ok h_day day_of_week _ _ Hp)
    as (m3 & w3 & v3 & Hm3 & Hw3 & Hv3 & E3).
  destruct (_calculate_base_demand_Ok h_night day_of_week _ _ Hp)
    as (m4 & w4 & v4 & Hm4 & Hw4 & Hv4 & E4).
  exists v1, v2, v3, v4. repeat (split; [assumption |]).
  pose proof (spec_weekend_multiplier_pos _ _ _ Hw1) as Hw.
  rewrite <- (spec_weekend_multiplier_fun _ _ _ _ Hw1 Hw2) in E2.
  rewrite <- (spec_weekend_multiplier_fun _ _ _ _ Hw1 Hw3) in E3.
  rewrite <- (spec_weekend_multiplier_fun _ _ _ _ Hw1 Hw4) in E4.
  assert (Hbw : (0 < inject_Z (Pattern.base_demand pattern) * w1)%Q)
    by (apply Qmult_lt_0_compat; assumption).
  set (bw := (inject_Z (Pattern.base_demand pattern) * w1)%Q) in *.
  assert (E1' : (v1 == bw * m1)%Q) by (rewrite E1; unfold bw; ring).
  assert (E2' : (v2 == bw * m2)%Q) by (rewrite E2; unfold bw; ring).
  assert (E3' : (v3 == bw * m3)%Q) by (rewrite E3; unfold bw; ring).
  assert (E4' : (v4 == bw * m4)%Q) by (rewrite E4; unfold bw; ring).
  assert (M1 : m1 = 1.5%Q) by (inversion Hm1; [reflexivity | contradiction ..]).
  assert (M2 : m2 = 1.5%Q \/ m2 = 1.2%Q) by (inversion Hm2; auto; contradiction).
  assert (M3 : m3 = 1.0%Q) by (inversion Hm3; [contradiction .. | reflexivity | contradiction]).
  assert (M4 : m4 = 0.3%Q) by (inversion Hm4; [contradiction .. | reflexivity]).
  subst m1 m3 m4. rewrite E1', E2', E3', E4'.
  destruct M2 as [-> | ->]; repeat split; nra.
Qed.

Lemma base_demand_hour_class_order_witness :
  exists v_peak v_adjacent v_day v_night,
    _calculate_base_demand 8 6 "tourist" = Ok v_day
    /\ _calculate_base_demand 10 6 "tourist" = Ok v_peak
    /\ _calculate_base_demand 9 6 "tourist" = Ok v_adjacent
    /\ _calculate_base_demand 2 6 "tourist" = Ok v_night
    /\ (v_night < v_day)%Q /\ (v_day <= v_adjacent)%Q /\ (v_adjacent <= v_peak)%Q.
Proof.
  destruct (base_demand_hour_class_order "tourist" (Pattern.mk [10; 11; 14; 15] 20)
              6 10 9 8 2) as (vp & va & vd & vn & H1 & H2 & H3 & H4 & L1 & L2 & L3 & L4).
  - vm_compute; reflexivity.
  - simpl. rewrite !elem_of_cons. auto.
  - exists 10. simpl. rewrite !elem_of_cons. split; [auto | lia].
  - unfold daytime. lia.
  - simpl. rewrite !elem_of_cons, elem_of_nil. lia.
  - intros (p & Hp & Hh). simpl in Hp. rewrite !elem_of_cons, elem_of_nil in Hp. lia.
  - unfold daytime. lia.
  - simpl. rewrite !elem_of_cons, elem_of_nil. lia.
  - intros (p & Hp & Hh). simpl in Hp. rewrite !elem_of_cons, elem_of_nil in Hp. lia.
  - exists vp, va, vd, vn. repeat split; assumption.
Defined.

(** ** Factor model: weather, season, events *)

(** C10: [_get_weather_factor] always returns, and its value is the
    product of a temperature component in {0.7, 0.8, 1.0}, a rain component
    in {0.4, 1.0} and an air-quality component in {0.9, 1.0}; hence it lies
    in (0, 1]. *)
Theorem weather_factor_range (timestamp : Timestamp) (s : RandomState) :
  exists wf s' temp_factor rain_factor aqi_factor,
    _get_weather_factor timestamp s = Ok (wf, s')
    /\ temp_factor ∈ [0.7%Q; 0.8%Q; 1.0%Q]
    /\ rain_factor ∈ [0.4%Q; 1.0%Q]
    /\ aqi_factor ∈ [0.9%Q; 1.0%Q]
    /\ wf = (temp_factor * rain_factor * aqi_factor)%Q
    /\ (0 < wf)%Q /\ (wf <= 1)%Q.
Proof.
  unfold _get_weather_factor.
  set (month := ts_month timestamp).
  set (tf := if bool_decide (month ∈ [5; 6; 7]) then 0.7%Q
             else if bool_decide (month ∈ [12; 1; 2]) then 0.8%Q else 1.0%Q).
  set (af := if bool_decide (month ∈ [10; 11; 12; 1]) then 0.9%Q else 1.0%Q).
  assert (Htf : tf ∈ [0.7%Q; 0.8%Q; 1.0%Q]).
  { unfold tf. repeat case_bool_decide; rewrite !elem_of_cons; auto. }
  assert (Haf : af ∈ [0.9%Q; 1.0%Q]).
  { unfold af. case_bool_decide; rewrite !elem_of_cons; auto. }
  assert (Hrange : forall rf, rf ∈ [0.4%Q; 1.0%Q] ->
             (0 < tf * rf * af)%Q /\ (tf * rf * af <= 1)%Q).
  { clearbody tf af. intros rf Hrf.
    elem_cases Htf; elem_cases Haf; elem_cases Hrf;
      split; (reflexivity || discriminate). }
  case_bool_decide as Hmonsoon.
  - unfold bind, random_random, ret.
    set (r := frac _). set (s' := mkRandomState _ _ _ _).
    set (rf := if Qlt_bool r 0.3%Q then 0.4%Q else 1.0%Q).
    assert (Hrf : rf ∈ [0.4%Q; 1.0%Q]).
    { unfold rf. destruct (Qlt_bool r 0.3%Q); rewrite !elem_of_cons; auto. }
    exists (tf * rf * af)%Q, s', tf, rf, af.
    split; [reflexivity |]. repeat (split; [assumption || reflexivity |]).
    apply Hrange, Hrf.
  - unfold bind, ret.
    assert (Hrf : 1.0%Q ∈ [0.4%Q; 1.0%Q]) by (rewrite !elem_of_cons; auto).
    exists (tf * 1.0 * af)%Q, s, tf, 1.0%Q, af.
    split; [reflexivity |]. repeat (split; [assumption || reflexivity |]).
    apply Hrange, Hrf.
Qed.

Lemma _get_weather_factor_pos timestamp s wf s' :
  _get_weather_factor timestamp s = Ok (wf, s') -> (0 < wf)%Q.
Proof.
  intros H. unfold _get_weather_factor in H. inv_run.
  repeat case_bool_decide; inv_run;
    try (destruct (Qlt_bool _ _)); reflexivity.
Qed.

Lemma _get_weather_factor_Ok timestamp s :
  exists wf s', _get_weather_factor timestamp s = Ok (wf, s').
Proof.
  unfold _get_weather_factor, bind, ret, random_random.
  case_bool_decide; eexists _, _; reflexivity.
Qed.

Lemma _get_seasonal_factor_pos timestamp : (0 < _get_seasonal_factor timestamp)%Q.
Proof. unfold _get_seasonal_factor. repeat case_bool_decide; reflexivity. Qed.

Lemma _get_event_factor_Ok timestamp s :
  exists ef s', _get_event_factor timestamp s = Ok (ef, s') /\ (1 <= ef)%Q /\ (ef <= 1.8)%Q.
Proof.
  unfold _get_event_factor, bind.
  destruct (random_random_Ok s) as (r & s1 & -> & _).
  destruct (Qlt_bool r 0.05%Q).
  - destruct (random_uniform_Ok 1.2%Q 1.8%Q s1) as (x & s2 & Hx & Hlo & Hhi);
      [discriminate |].
    exists x, s2. split; [exact Hx |]. split; lra.
  - exists 1.0%Q, s1. split; [reflexivity |]. split; discriminate.
Qed.

Lemma _get_event_factor_pos timestamp s ef s' :
  _get_event_factor timestamp s = Ok (ef, s') -> (0 < ef)%Q.
Proof.
  intros H. destruct (_get_event_factor_Ok timestamp s) as (ef' & s2 & H' & Hlo & _).
  rewrite H in H'. injection H' as -> ->. lra.
Qed.

(** C7: the weather condition is decided by the thresholds in this order:
    precipitation above 5 is rainy; else temperature above 35 is hot; else
    temperature below 15 is cold; else pleasant. *)
Theorem weather_condition_thresholds (temp precipitation : Q) :
  ((5 < precipitation)%Q -> _get_weather_condition temp precipitation = "rainy")
  /\ ((precipitation <= 5)%Q -> (35 < temp)%Q ->
      _get_weather_condition temp precipitation = "hot")
  /\ ((precipitation <= 5)%Q -> (temp <= 35)%Q -> (temp < 15)%Q ->
      _get_weather_condition temp precipitation = "cold")
  /\ ((precipitation <= 5)%Q -> (temp <= 35)%Q -> (15 <= temp)%Q ->
      _get_weather_condition temp precipitation = "pleasant")
  /\ _get_weather_condition 40 0 = "hot"
  /\ _get_weather_condition 10 0 = "cold"
  /\ _get_weather_condition 25 10 = "rainy"
  /\ _get_weather_condition 25 0 = "pleasant".
Proof.
  unfold _get_weather_condition.
  repeat split; try reflexivity.
  - intros H. apply Qlt_bool_iff in H. rewrite H. reflexivity.
  - intros Hp Ht. apply Qlt_bool_false_iff in Hp. apply Qlt_bool_iff in Ht.
    rewrite Hp, Ht. reflexivity.
  - intros Hp Ht Hc. apply Qlt_bool_false_iff in Hp, Ht. apply Qlt_bool_iff in Hc.
    rewrite Hp, Ht, Hc. reflexivity.
  - intros Hp Ht Hc. apply Qlt_bool_false_iff in Hp, Ht, Hc.
    rewrite Hp, Ht, Hc. reflexivity.
Qed.

Lemma weather_condition_thresholds_witness :
  _get_weather_condition 12 7 = "rainy"
  /\ _get_weather_condition 36 5 = "hot"
  /\ _get_weather_condition 14.9 0 = "cold"
  /\ _get_weather_condition 35 5 = "pleasant".
Proof.
  split; [| split; [| split]].
  - apply (proj1 (weather_condition_thresholds 12 7)). reflexivity.
  - apply (proj1 (proj2 (weather_condition_thresholds 36 5))); [discriminate | reflexivity].
  - apply (proj1 (proj2 (proj2 (weather_condition_thresholds 14.9 0))));
      [discriminate | discriminate | reflexivity].
  - apply (proj1 (proj2 (proj2 (proj2 (weather_condition_thresholds 35 5)))));
      discriminate.
Defined.

(** ** Demand synthesizer: the shape of the trip table *)

Lemma trip_station_loop_shape timestamp month wf sf ef stations trips processed s r s' :
  for_loop stations
    (trip_station_body timestamp (ts_hour timestamp) (ts_weekday timestamp) month wf sf ef)
    (trips, processed) s = Ok (r, s') ->
  exists block,
    fst r = trips ++ block
    /\ Forall2 (row_of timestamp wf sf ef) stations block
    /\ snd r = processed + Z.of_nat (length stations).
Proof.
  intros Hrun.
  apply (for_loop_inv _ stations
           (fun done vars _ =>
              exists block, fst vars = trips ++ block
                            /\ Forall2 (row_of timestamp wf sf ef) done block
                            /\ snd vars = processed + Z.of_nat (length done)))
    in Hrun; [exact Hrun | |].
  - clear. intros done x rest acc s acc' s' _ (block & Hacc & Hrows & Hcount) Hbody.
    unfold trip_station_body in Hbody. inv_run. simpl.
    eexists (block ++ [_]). rewrite Hacc, <- app_assoc. split; [reflexivity |].
    split.
    + apply Forall2_app; [exact Hrows |]. constructor; [| constructor].
      unfold row_of. simpl. repeat split; try reflexivity. lia.
    + rewrite Hcount, length_app. simpl. lia.
  - exists []. simpl. rewrite app_nil_r. repeat split; [constructor | lia].
Qed.

Lemma trip_timestamp_body_shape self total_records timestamp trips processed s r s' :
  trip_timestamp_body self total_records timestamp (trips, processed) s = Ok (r, s') ->
  exists block,
    fst r = trips ++ block
    /\ block_of (station_locations self) timestamp block
    /\ snd r = processed + Z.of_nat (length (station_locations self)).
Proof.
  unfold trip_timestamp_body. intros Hrun. inv_run.
  match goal with
  | H : for_loop _ _ _ _ = Ok _ |- _ =>
      apply trip_station_loop_shape in H as (block & Hfst & Hrows & Hsnd)
  end.
  exists block. split; [exact Hfst |]. split; [| exact Hsnd].
  eexists _, _, _. exact Hrows.
Qed.

(** The trip table is the concatenation of one block per timestamp of the
    date range, in order. *)
Lemma generate_trip_data_shape self s trips s' :
  generate_trip_data self s = Ok (trips, s') ->
  exists blocks,
    trips = concat blocks
    /\ Forall2 (block_of (station_locations self))
         (date_range (start_date self) (end_date self)) blocks.
Proof.
  unfold generate_trip_data. intros Hrun. inv_run.
  match goal with H : for_loop _ _ _ _ = Ok _ |- _ => rename H into Hloop end.
  apply (for_loop_inv _ _
           (fun done vars _ =>
              exists blocks, fst vars = concat blocks
                             /\ Forall2 (block_of (station_locations self)) done blocks))
    in Hloop; [exact Hloop | |].
  - clear. intros done x rest [trips processed] s acc' s' _ (blocks & Hacc & Hblocks) Hbody.
    apply trip_timestamp_body_shape in Hbody as (block & Hfst & Hblock & _).
    exists (blocks ++ [block]). simpl in Hacc. subst trips. split.
    + rewrite Hfst, concat_app. simpl. rewrite app_nil_r. reflexivity.
    + apply Forall2_app; [exact Hblocks |]. constructor; [exact Hblock | constructor].
  - exists []. split; [reflexivity | constructor].
Qed.

(** Every row of a block carries the block's timestamp. *)
Lemma block_of_timestamp stations timestamp block row :
  block_of stations timestamp block -> row ∈ block -> Trip.timestamp row = timestamp.
Proof.
  intros (wf & sf & ef & Hrows) Hin.
  apply list_elem_of_lookup in Hin as [i Hi].
  destruct (Forall2_lookup_r _ _ _ _ _ Hrows Hi) as (st & _ & Hrow).
  apply Hrow.
Qed.

Lemma block_of_trip_count stations timestamp block :
  block_of stations timestamp block -> Forall (fun row => 0 <= Trip.trip_count row) block.
Proof.
  intros (wf & sf & ef & Hrows). induction Hrows as [| st row sts rows Hrow _ IH].
  - constructor.
  - constructor; [apply Hrow | exact IH].
Qed.

(** C1: every row of the table returned by [generate_trip_data] has a
    non-negative [trip_count], for any date range, any station list and any
    content of the two random tapes (the sample itself may be any integer:
    the bound comes from the clamp). *)
Theorem trip_count_nonneg (self : MicroMobilityDataGenerator) (s : RandomState)
  (trips : list Trip.t) (s' : RandomState) :
  generate_trip_data self s = Ok (trips, s') ->
  Forall (fun row => 0 <= Trip.trip_count row) trips.
Proof.
  intros Hrun. apply generate_trip_data_shape in Hrun as (blocks & -> & Hblocks).
  apply Forall_concat.
  induction Hblocks as [| t block ts blocks Hblock _ IH]; constructor.
  - eapply block_of_trip_count, Hblock.
  - exact IH.
Qed.

Lemma trip_count_nonneg_witness :
  exists trips s',
    generate_trip_data sample_generator sample_state = Ok (trips, s')
    /\ Forall (fun row => 0 <= Trip.trip_count row) trips.
Proof.
  destruct (generate_trip_data sample_generator sample_state) as [[trips s'] | e] eqn:E.
  - exists trips, s'. split; [reflexivity |].
    exact (trip_count_nonneg sample_generator sample_state trips s' E).
  - vm_compute in E. discriminate E.
Defined.

(** ** The date range *)

Lemma date_range_NoDup start stop : NoDup (date_range start stop).
Proof.
  unfold date_range. apply NoDup_fmap_2; [| apply NoDup_seqZ].
  intros k1 k2 H. lia.
Qed.

Lemma date_range_inverted start stop : stop < start -> date_range start stop = [].
Proof.
  intros H. unfold date_range. rewrite seqZ_nil; [reflexivity |].
  assert ((stop - start) `div` 3600 < 0) by (apply Z.div_lt_upper_bound; lia).
  lia.
Qed.

Lemma date_range_elem start stop t :
  t ∈ date_range start stop <->
  exists k, t = start + 3600 * k /\ 0 <= k /\ start + 3600 * k <= stop.
Proof.
  unfold date_range. rewrite list_elem_of_fmap. setoid_rewrite elem_of_seqZ.
  split; intros (k & Ht & Hk); exists k; (split; [exact Ht |]).
  - split; [lia |].
    assert (k <= (stop - start) `div` 3600) by lia.
    pose proof (Z.mul_div_le (stop - start) 3600). lia.
  - destruct Hk as [Hk0 Hk]. split; [exact Hk0 |].
    assert (k <= (stop - start) `div` 3600) by (apply Z.div_le_lower_bound; lia).
    lia.
Qed.

(** ** Demand synthesizer: factors are drawn once per timestamp *)

(** A row of the table sits in the block of its own timestamp. *)
Lemma row_block stations timestamps blocks row :
  Forall2 (block_of stations) timestamps blocks ->
  row ∈ concat blocks ->
  exists i block,
    timestamps !! i = Some (Trip.timestamp row)
    /\ blocks !! i = Some block /\ row ∈ block
    /\ block_of stations (Trip.timestamp row) block.
Proof.
  intros Hblocks Hin.
  apply list_elem_of_In, in_concat in Hin as (block & Hblock & Hrow).
  apply list_elem_of_In, list_elem_of_lookup in Hblock as [i Hi].
  apply list_elem_of_In in Hrow.
  destruct (Forall2_lookup_r _ _ _ _ _ Hblocks Hi) as (t & Ht & Hb).
  pose proof (block_of_timestamp _ _ _ _ Hb Hrow) as Hts. subst t.
  exists i, block. auto.
Qed.

Lemma block_of_factors stations timestamp block r1 r2 :
  block_of stations timestamp block -> r1 ∈ block -> r2 ∈ block ->
  Trip.weather_factor r1 = Trip.weather_factor r2
  /\ Trip.seasonal_factor r1 = Trip.seasonal_factor r2
  /\ Trip.event_factor r1 = Trip.event_factor r2.
Proof.
  intros (wf & sf & ef & Hrows) H1 H2.
  apply list_elem_of_lookup in H1 as [i1 H1], H2 as [i2 H2].
  destruct (Forall2_lookup_r _ _ _ _ _ Hrows H1) as (st1 & _ & R1).
  destruct (Forall2_lookup_r _ _ _ _ _ Hrows H2) as (st2 & _ & R2).
  destruct R1 as (_ & _ & _ & _ & W1 & S1 & E1 & _).
  destruct R2 as (_ & _ & _ & _ & W2 & S2 & E2 & _).
  rewrite W1, W2, S1, S2, E1, E2. auto.
Qed.

(** C4: within one run of [generate_trip_data], two rows with the same
    timestamp carry the same weather, seasonal and event factors: the
    factors are computed in the outer loop, once per timestamp, and every
    station's row at that timestamp stores those values. *)
Theorem factors_shared_per_timestamp (self : MicroMobilityDataGenerator)
  (s : RandomState) (trips : list Trip.t) (s' : RandomState) (r1 r2 : Trip.t) :
  generate_trip_data self s = Ok (trips, s') ->
  r1 ∈ trips -> r2 ∈ trips ->
  Trip.timestamp r1 = Trip.timestamp r2 ->
  Trip.weather_factor r1 = Trip.weather_factor r2
  /\ Trip.seasonal_factor r1 = Trip.seasonal_factor r2
  /\ Trip.event_factor r1 = Trip.event_factor r2.
Proof.
  intros Hrun H1 H2 Hts.
  apply generate_trip_data_shape in Hrun as (blocks & -> & Hblocks).
  destruct (row_block _ _ _ _ Hblocks H1) as (i1 & b1 & T1 & B1 & R1 & Hb1).
  destruct (row_block _ _ _ _ Hblocks H2) as (i2 & b2 & T2 & B2 & R2 & _).
  rewrite Hts in T1.
  pose proof (NoDup_lookup _ _ _ _ (date_range_NoDup _ _) T1 T2) as <-.
  rewrite B1 in B2. injection B2 as <-.
  eapply block_of_factors; eauto.
Qed.

(** C5: when [end_date] is earlier than [start_date], [generate_trip_data]
    returns the empty table, raises nothing and draws nothing, whatever the
    station list. *)
Theorem inverted_range_empty (self : MicroMobilityDataGenerator) (s : RandomState) :
  end_date self < start_date self ->
  generate_trip_data self s = Ok ([], s).
Proof.
  intros H. unfold generate_trip_data.
  rewrite (date_range_inverted _ _ H). reflexivity.
Qed.

Lemma inverted_range_empty_witness :
  generate_trip_data
    (mkGenerator (mkTimestamp 2024 1 2 0 0 0) (mkTimestamp 2024 1 1 0 0 0) 2 "Delhi"
       (station_locations sample_generator)) sample_state
  = Ok ([], sample_state).
Proof.
  apply (inverted_range_empty
           (mkGenerator (mkTimestamp 2024 1 2 0 0 0) (mkTimestamp 2024 1 1 0 0 0) 2 "Delhi"
              (station_locations sample_generator)) sample_state).
  vm_compute. reflexivity.
Defined.

Lemma factors_shared_per_timestamp_witness :
  exists trips s' r1 r2,
    generate_trip_data sample_generator sample_state = Ok (trips, s')
    /\ r1 ∈ trips /\ r2 ∈ trips
    /\ Trip.station_id r1 <> Trip.station_id r2
    /\ Trip.timestamp r1 = Trip.timestamp r2
    /\ Trip.weather_factor r1 = Trip.weather_factor r2
    /\ Trip.seasonal_factor r1 = Trip.seasonal_factor r2
    /\ Trip.event_factor r1 = Trip.event_factor r2.
Proof.
  destruct (generate_trip_data sample_generator sample_state) as [[trips s'] | e] eqn:E.
  - pose proof E as E'. vm_compute in E'. injection E' as Htrips _. subst trips.
    eexists _, s', _, _. split; [reflexivity |].
    assert (H1 : forall (x y : Trip.t) l, x ∈ x :: y :: l) by (intros; apply list_elem_of_here).
    assert (H2 : forall (x y : Trip.t) l, y ∈ x :: y :: l)
      by (intros; apply list_elem_of_further, list_elem_of_here).
    split; [apply H1 |]. split; [apply H2 |].
    split; [simpl; lia |]. split; [reflexivity |].
    exact (factors_shared_per_timestamp sample_generator sample_state _ s' _ _ E
             (H1 _ _ _) (H2 _ _ _) eq_refl).
  - vm_compute in E. discriminate E.
Defined.

(** ** Station registry *)

Lemma major_areas_known :
  Forall (fun area => is_Some (base_patterns !! Area.type area)) major_areas.
Proof. unfold major_areas. repeat constructor; vm_compute; eauto. Qed.

(** [_generate_station_locations] always returns; the station ids are
    0, 1, ... in order and every station is built from a catalogue anchor. *)
Lemma _generate_station_locations_Ok (num_stations : Z) (s : RandomState) :
  exists locations s',
    _generate_station_locations num_stations s = Ok (locations, s')
    /\ Station.station_id <$> locations = seqZ 0 num_stations
    /\ Forall from_catalogue locations.
Proof.
  unfold _generate_station_locations.
  apply (for_loop_total station_location_body (seqZ 0 num_stations)
           (fun done locations _ =>
              Station.station_id <$> locations = done
              /\ Forall from_catalogue locations)).
  - intros done i rest locations s0 _ [Hids Hcat].
    unfold station_location_body, bind.
    destruct (random_choice_Ok major_areas s0) as (area & s1 & -> & Harea);
      [discriminate |].
    destruct (random_uniform_Ok (-0.02)%Q 0.02%Q s1) as (lat & s2 & -> & _);
      [discriminate |].
    destruct (random_uniform_Ok (-0.02)%Q 0.02%Q s2) as (lon & s3 & -> & _);
      [discriminate |].
    eexists _, s3. split; [reflexivity |]. split.
    + rewrite fmap_app, Hids. reflexivity.
    + apply Forall_app. split; [exact Hcat |]. constructor; [| constructor].
      exists area. simpl. auto.
  - split; [reflexivity | constructor].
Qed.

Lemma from_catalogue_known station_info :
  from_catalogue station_info -> known_area station_info.
Proof.
  intros (area & Harea & Htype & _). unfold known_area. rewrite Htype.
  pose proof major_areas_known as H. rewrite Forall_forall in H. apply H, Harea.
Qed.

(** C9: every station the registry produces has the [area_type] of a
    catalogue anchor, that [area_type] is a key of [base_patterns], and so
    [_calculate_base_demand] returns a value for it (the [KeyError] of the
    profile lookup cannot occur), at every hour and day. *)
Theorem registry_area_types_have_profiles (num_stations : Z) (s : RandomState)
  (locations : list Station.t) (s' : RandomState) (station_info : Station.t) :
  _generate_station_locations num_stations s = Ok (locations, s') ->
  station_info ∈ locations ->
  (exists area, area ∈ major_areas /\ Station.area_type station_info = Area.type area)
  /\ is_Some (base_patterns !! Station.area_type station_info)
  /\ forall hour day_of_week,
       exists v, _calculate_base_demand hour day_of_week
                   (Station.area_type station_info) = Ok v.
Proof.
  intros Hrun Hin.
  destruct (_generate_station_locations_Ok num_stations s) as (l & s1 & Hl & _ & Hcat).
  rewrite Hrun in Hl. injection Hl as <- <-.
  rewrite Forall_forall in Hcat. specialize (Hcat _ Hin).
  pose proof (from_catalogue_known _ Hcat) as [pattern Hp].
  destruct Hcat as (area & Harea & Htype & _).
  split; [exists area; auto |]. split; [exists pattern; exact Hp |].
  intros hour day_of_week.
  destruct (_calculate_base_demand_Ok hour day_of_week _ _ Hp) as (m & w & v & _ & _ & Hv & _).
  exists v. exact Hv.
Qed.

Lemma registry_area_types_have_profiles_witness :
  exists locations s' station_info,
    _generate_station_locations 3 sample_state = Ok (locations, s')
    /\ station_info ∈ locations
    /\ is_Some (base_patterns !! Station.area_type station_info)
    /\ exists v, _calculate_base_demand 8 2 (Station.area_type station_info) = Ok v.
Proof.
  destruct (_generate_station_locations 3 sample_state) as [[locations s'] | e] eqn:E.
  - pose proof E as E'. vm_compute in E'. injection E' as Hl _. subst locations.
    eexists _, s', _. split; [reflexivity |].
    assert (H1 : forall (x : Station.t) l, x ∈ x :: l) by (intros; apply list_elem_of_here).
    split; [apply H1 |].
    destruct (registry_area_types_have_profiles 3 sample_state _ s' _ E (H1 _ _))
      as (_ & Hknown & Hcalc).
    split; [exact Hknown | exact (Hcalc 8 2)].
  - vm_compute in E. discriminate E.
Defined.

(** ** Demand synthesizer: the run returns *)

Lemma _calculate_base_demand_pos hour day_of_week area_type :
  is_Some (base_patterns !! area_type) ->
  exists v, _calculate_base_demand hour day_of_week area_type = Ok v /\ (0 < v)%Q.
Proof.
  intros [pattern Hp].
  destruct (_calculate_base_demand_Ok hour day_of_week _ _ Hp)
    as (m & w & v & Hm & Hw & Hv & Heq).
  exists v. split; [exact Hv |]. rewrite Heq.
  apply spec_hour_multiplier_pos in Hm. apply spec_weekend_multiplier_pos in Hw.
  apply base_patterns_base_pos in Hp.
  assert (0 < inject_Z (Pattern.base_demand pattern))%Q
    by (change 0%Q with (inject_Z 0); rewrite <- Zlt_Qlt; exact Hp).
  repeat apply Qmult_lt_0_compat; assumption.
Qed.

Lemma np_random_poisson_Ok (lam : Q) (s : RandomState) :
  (0 <= lam)%Q -> exists sample s', np_random_poisson lam s = Ok (sample, s').
Proof.
  intros H. unfold np_random_poisson.
  apply Qlt_bool_false_iff in H. rewrite H. eexists _, _. reflexivity.
Qed.

Lemma trip_station_loop_Ok timestamp hour day_of_week month wf sf ef stations vars s :
  Forall known_area stations -> (0 < wf)%Q -> (0 < sf)%Q -> (0 < ef)%Q ->
  exists r s',
    for_loop stations
      (trip_station_body timestamp hour day_of_week month wf sf ef) vars s = Ok (r, s').
Proof.
  intros Hknown Hwf Hsf Hef.
  destruct (for_loop_total
              (trip_station_body timestamp hour day_of_week month wf sf ef) stations
              (fun _ _ _ => True)) with (acc := vars) (s := s)
    as (r & s' & Hrun & _); [| exact I | exists r, s'; exact Hrun].
  intros done x rest acc s0 Hsplit _.
  assert (Hx : known_area x).
  { rewrite Forall_forall in Hknown. apply Hknown. rewrite Hsplit.
    apply elem_of_app. right. apply list_elem_of_here. }
  destruct (_calculate_base_demand_pos hour day_of_week _ Hx) as (v & Hv & Hpos).
  unfold trip_station_body, bind. rewrite Hv. simpl.
  destruct (np_random_poisson_Ok (v * wf * sf * ef) s0) as (k & s1 & ->).
  { apply Qlt_le_weak. repeat apply Qmult_lt_0_compat; assumption. }
  eexists _, _. split; [reflexivity | exact I].
Qed.

Lemma progress_indicator_Ok processed total_records s :
  total_records <> 0 -> progress_indicator processed total_records s = Ok (tt, s).
Proof.
  intros H. unfold progress_indicator, py_truediv.
  destruct (Z.eqb_spec total_records 0) as [| _]; [contradiction |].
  destruct (_ =? 0); reflexivity.
Qed.

Lemma trip_timestamp_body_Ok self total_records timestamp vars s :
  total_records <> 0 -> Forall known_area (station_locations self) ->
  exists r s', trip_timestamp_body self total_records timestamp vars s = Ok (r, s').
Proof.
  intros Htotal Hknown. unfold trip_timestamp_body, bind.
  rewrite (progress_indicator_Ok _ _ _ Htotal).
  destruct (_get_weather_factor_Ok timestamp s) as (wf & s1 & Hwf). rewrite Hwf.
  destruct (_get_event_factor_Ok timestamp s1) as (ef & s2 & Hef & Hlo & _). rewrite Hef.
  apply trip_station_loop_Ok; [exact Hknown | | |].
  - eapply _get_weather_factor_pos, Hwf.
  - apply _get_seasonal_factor_pos.
  - lra.
Qed.

(** [generate_trip_data] returns a table as soon as [num_stations] is not
    zero and every station's archetype has a profile entry. *)
Lemma generate_trip_data_Ok self s :
  num_stations self <> 0 -> Forall known_area (station_locations self) ->
  exists trips s', generate_trip_data self s = Ok (trips, s').
Proof.
  intros Hnum Hknown. unfold generate_trip_data.
  set (timestamps := date_range (start_date self) (end_date self)).
  set (total_records := Z.of_nat (length timestamps) * num_stations self).
  destruct (for_loop_total (trip_timestamp_body self total_records) timestamps
              (fun _ _ _ => True)) with (acc := ([] : list Trip.t, 0)) (s := s)
    as (r & s' & Hrun & _).
  - intros done x rest acc s0 Hsplit _.
    destruct (trip_timestamp_body_Ok self total_records x acc s0) as (r & s1 & Hr).
    + unfold total_records. rewrite Hsplit, length_app. simpl. nia.
    + exact Hknown.
    + exists r, s1. split; [exact Hr | exact I].
  - exact I.
  - unfold bind. rewrite Hrun. eexists _, _. reflexivity.
Qed.

(** With no station and a non-empty date range, the progress indicator
    divides by zero on the first timestamp. *)
Lemma generate_trip_data_no_station self s :
  num_stations self = 0 -> start_date self <= end_date self ->
  generate_trip_data self s = Raise ZeroDivisionError.
Proof.
  intros Hnum Hrange. unfold generate_trip_data. rewrite Hnum, Z.mul_0_r.
  assert (Hin : start_date self ∈ date_range (start_date self) (end_date self)).
  { apply date_range_elem. exists 0. lia. }
  destruct (date_range _ _) as [| t ts]; [inversion Hin |]. reflexivity.
Qed.

(** ** Demand synthesizer: one row per timestamp and station *)

Lemma block_of_keys stations timestamp block :
  block_of stations timestamp block ->
  trip_key <$> block = (fun st => (timestamp, Station.station_id st)) <$> stations.
Proof.
  intros (wf & sf & ef & Hrows).
  induction Hrows as [| st row sts rows Hrow _ IH]; [reflexivity |].
  rewrite !fmap_cons, IH. f_equal.
  destruct Hrow as (Ht & Hid & _). unfold trip_key. rewrite Ht, Hid. reflexivity.
Qed.

Lemma blocks_keys stations timestamps blocks :
  Forall2 (block_of stations) timestamps blocks ->
  trip_key <$> concat blocks = table_keys timestamps stations.
Proof.
  unfold table_keys.
  induction 1 as [| t block ts blocks Hblock _ IH]; [reflexivity |].
  simpl concat. rewrite fmap_app, bind_cons, IH, (block_of_keys _ _ _ Hblock).
  reflexivity.
Qed.

(** The rows of the table, read by key, are exactly the pairs of a
    timestamp of the range and a station, timestamps first. *)
Lemma generate_trip_data_keys self s trips s' :
  generate_trip_data self s = Ok (trips, s') ->
  trip_key <$> trips
  = table_keys (date_range (start_date self) (end_date self)) (station_locations self).
Proof.
  intros Hrun. apply generate_trip_data_shape in Hrun as (blocks & -> & Hblocks).
  apply blocks_keys, Hblocks.
Qed.

Lemma table_keys_length timestamps stations :
  length (table_keys timestamps stations) = (length timestamps * length stations)%nat.
Proof.
  unfold table_keys. induction timestamps as [| t ts IH]; [reflexivity |].
  rewrite bind_cons, length_app, length_fmap, IH. simpl. reflexivity.
Qed.

Lemma table_keys_NoDup timestamps stations :
  NoDup timestamps -> NoDup (Station.station_id <$> stations) ->
  NoDup (table_keys timestamps stations).
Proof.
  intros Hts Hids. unfold table_keys. apply NoDup_bind; [| | exact Hts].
  - intros t1 t2 key _ _ H1 H2.
    apply list_elem_of_fmap in H1 as (st1 & -> & _).
    apply list_elem_of_fmap in H2 as (st2 & E & _). congruence.
  - intros t _. apply (NoDup_fmap_1 snd). rewrite <- list_fmap_compose. exact Hids.
Qed.

Lemma table_keys_elem timestamps stations t sid :
  t ∈ timestamps -> sid ∈ Station.station_id <$> stations ->
  (t, sid) ∈ table_keys timestamps stations.
Proof.
  intros Ht Hsid. unfold table_keys. apply list_elem_of_bind. exists t.
  split; [| exact Ht].
  apply list_elem_of_fmap in Hsid as (st & -> & Hst).
  apply list_elem_of_fmap. exists st. auto.
Qed.

Lemma row_hour self s trips s' row :
  generate_trip_data self s = Ok (trips, s') -> row ∈ trips ->
  Trip.hour row = ts_hour (Trip.timestamp row).
Proof.
  intros Hrun Hin. apply generate_trip_data_shape in Hrun as (blocks & -> & Hblocks).
  destruct (row_block _ _ _ _ Hblocks Hin) as (i & block & _ & _ & Hrow & Hb).
  destruct Hb as (wf & sf & ef & Hrows).
  apply list_elem_of_lookup in Hrow as [j Hj].
  destruct (Forall2_lookup_r _ _ _ _ _ Hrows Hj) as (st & _ & R).
  apply R.
Qed.

(** The hourly range from midnight to 23:00 of the same day. *)
Lemma date_range_one_day start :
  date_range start (start + 23 * 3600) = (fun k => start + 3600 * k) <$> seqZ 0 24.
Proof.
  unfold date_range. replace (start + 23 * 3600 - start) with (23 * 3600) by lia.
  reflexivity.
Qed.

Lemma ts_hour_of_day start k :
  start `mod` 86400 = 0 -> 0 <= k <= 23 ->
  ts_hour (start + 3600 * k) = k /\ ts_date (start + 3600 * k) = ts_date start.
Proof.
  intros Hmid Hk. unfold ts_hour, ts_date, days_of.
  pose proof (Z.div_mod start 86400 ltac:(lia)) as Hdm. rewrite Hmid in Hdm.
  set (d := start `div` 86400) in *.
  assert (E : start + 3600 * k = (24 * d + k) * 3600) by lia.
  split.
  - rewrite E, Z.div_mul by lia.
    rewrite Z.add_comm, Z.mul_comm, Z.mod_add by lia. apply Z.mod_small. lia.
  - symmetry. apply Z.div_unique with (r := 3600 * k); lia.
Qed.

(** C2, as the code has it: with three stations, the range from 00:00 to
    23:00 of one day yields exactly 72 rows, with pairwise distinct
    (timestamp, station_id) keys, one for each of the 24 hours of that day
    and each of the 3 stations. *)
Theorem midnight_to_23h_yields_72_rows (start : Timestamp) (city_name : string)
  (s : RandomState) :
  start `mod` 86400 = 0 ->
  exists self s1 trips s2,
    __init__ start (start + 23 * 3600) 3 city_name s = Ok (self, s1)
    /\ generate_trip_data self s1 = Ok (trips, s2)
    /\ length trips = 72%nat
    /\ NoDup (trip_key <$> trips)
    /\ forall hour station_id,
         0 <= hour <= 23 -> 0 <= station_id < 3 ->
         exists row, row ∈ trips
                     /\ Trip.hour row = hour
                     /\ Trip.station_id row = station_id
                     /\ ts_date (Trip.timestamp row) = ts_date start.
Proof.
  intros Hmid.
  destruct (_generate_station_locations_Ok 3 s) as (locations & s1 & Hloc & Hids & Hcat).
  set (self := mkGenerator start (start + 23 * 3600) 3 city_name locations).
  destruct (generate_trip_data_Ok self s1) as (trips & s2 & Hrun).
  { simpl. lia. }
  { simpl. eapply Forall_impl; [exact Hcat | apply from_catalogue_known]. }
  exists self, s1, trips, s2.
  split; [unfold __init__, bind; rewrite Hloc; reflexivity |].
  split; [exact Hrun |].
  pose proof (generate_trip_data_keys _ _ _ _ Hrun) as Hkeys. simpl in Hkeys.
  rewrite date_range_one_day in Hkeys.
  split; [| split].
  - rewrite <- (length_fmap trip_key), Hkeys, table_keys_length.
    rewrite <- (length_fmap Station.station_id locations), Hids. reflexivity.
  - rewrite Hkeys. apply table_keys_NoDup.
    + rewrite <- date_range_one_day. apply date_range_NoDup.
    + rewrite Hids. apply NoDup_seqZ.
  - intros hour sid Hhour Hsid.
    assert (Hin : (start + 3600 * hour, sid)
                  ∈ table_keys ((fun k => start + 3600 * k) <$> seqZ 0 24) locations).
    { apply table_keys_elem.
      - apply list_elem_of_fmap. exists hour. split; [reflexivity |].
        apply elem_of_seqZ. lia.
      - rewrite Hids. apply elem_of_seqZ. lia. }
    rewrite <- Hkeys in Hin. apply list_elem_of_fmap in Hin as (row & Hkey & Hrow).
    injection Hkey as Hts Hid.
    exists row. split; [exact Hrow |].
    rewrite (row_hour _ _ _ _ _ Hrun Hrow), <- Hts.
    destruct (ts_hour_of_day start hour Hmid Hhour) as [-> ->]. auto.
Qed.

Lemma midnight_to_23h_yields_72_rows_witness :
  exists self s1 trips s2,
    __init__ (mkTimestamp 2024 1 1 0 0 0) (mkTimestamp 2024 1 1 0 0 0 + 23 * 3600)
      3 "Delhi" sample_state = Ok (self, s1)
    /\ generate_trip_data self s1 = Ok (trips, s2)
    /\ length trips = 72%nat
    /\ NoDup (trip_key <$> trips).
Proof.
  destruct (midnight_to_23h_yields_72_rows (mkTimestamp 2024 1 1 0 0 0) "Delhi" sample_state)
    as (self & s1 & trips & s2 & H1 & H2 & H3 & H4 & _).
  - vm_compute. reflexivity.
  - exists self, s1, trips, s2. auto.
Defined.

(** C2, as stated, fails: a range given by dates holds the hourly instants
    from the first midnight to the last midnight.  With three stations, the
    range from a date to the same date yields 3 rows, and the range from a
    date to the next date yields 75 rows; neither is 72. *)
Lemma one_day_range_not_72_rows :
  (exists trips,
     run (construct_and_generate (mkTimestamp 2024 1 1 0 0 0) (mkTimestamp 2024 1 1 0 0 0)
            3 "Delhi") sample_state = Ok trips
     /\ length trips = 3%nat /\ length trips <> 72%nat)
  /\ (exists trips,
        run (construct_and_generate (mkTimestamp 2024 1 1 0 0 0) (mkTimestamp 2024 1 2 0 0 0)
               3 "Delhi") sample_state = Ok trips
        /\ length trips = 75%nat /\ length trips <> 72%nat).
Proof.
  split.
  - destruct (run _ _) as [trips | e] eqn:E; vm_compute in E; [| discriminate E].
    injection E as <-. eexists. split; [reflexivity |]. split; [reflexivity | discriminate].
  - destruct (run _ _) as [trips | e] eqn:E; vm_compute in E; [| discriminate E].
    injection E as <-. eexists. split; [reflexivity |]. split; [reflexivity | discriminate].
Qed.

(** ** Events generator *)

Lemma unique_from_spec (l seen : list Z) :
  NoDup (unique_from seen l)
  /\ forall x, x ∈ unique_from seen l -> x ∈ l /\ x ∉ seen.
Proof.
  revert seen. induction l as [| y l IH]; intros seen; simpl.
  - split; [constructor | intros x Hx; inversion Hx].
  - case_bool_decide as Hseen.
    + destruct (IH seen) as [Hnd Hel]. split; [exact Hnd |].
      intros x Hx. destruct (Hel x Hx). split; [apply list_elem_of_further |]; assumption.
    + destruct (IH (y :: seen)) as [Hnd Hel]. split.
      * constructor; [| exact Hnd]. intros Hy. destruct (Hel y Hy) as [_ Hny].
        apply Hny, list_elem_of_here.
      * intros x Hx. apply elem_of_cons in Hx as [-> | Hx].
        -- split; [apply list_elem_of_here | exact Hseen].
        -- destruct (Hel x Hx) as [Hxl Hxs]. split; [apply list_elem_of_further, Hxl |].
           intros Hxseen. apply Hxs, list_elem_of_further, Hxseen.
Qed.

Lemma unique_NoDup (l : list Z) : NoDup (unique l).
Proof. apply unique_from_spec. Qed.

Lemma unique_elem (l : list Z) x : x ∈ unique l -> x ∈ l.
Proof. intros H. apply (unique_from_spec l []), H. Qed.

(** One pass of the loop body appends at most one row, dated with the
    date it was run on. *)
Lemma event_date_body_dates self date events_data s events_data' s' :
  event_date_body self date events_data s = Ok (events_data', s') ->
  Event.date <$> events_data' = Event.date <$> events_data
  \/ Event.date <$> events_data' = (Event.date <$> events_data) ++ [date].
Proof.
  unfold event_date_body. intros Hrun. inv_run.
  destruct (Qlt_bool _ _); inv_run.
  - right. rewrite fmap_app. reflexivity.
  - left. reflexivity.
Qed.

(** The dates of the events table form a sub-sequence of the distinct
    dates of the trip table. *)
Lemma generate_events_data_dates self trip_data s events s' :
  generate_events_data self trip_data s = Ok (events, s') ->
  Event.date <$> events
    `sublist_of` unique ((fun row => ts_date (Trip.timestamp row)) <$> trip_data).
Proof.
  unfold generate_events_data. destruct trip_data as [| row rows]; [discriminate |].
  set (unique_dates := unique _). intros Hrun.
  apply (for_loop_inv _ unique_dates
           (fun done events_data _ => Event.date <$> events_data `sublist_of` done))
    in Hrun; [exact Hrun | |].
  - clear. intros done date rest events_data s events_data' s' _ Hsub Hbody.
    apply event_date_body_dates in Hbody as [-> | ->].
    + apply sublist_inserts_r, Hsub.
    + apply sublist_app; [exact Hsub | reflexivity].
  - simpl. constructor.
Qed.

(** C8: the events table returned by [generate_events_data] never holds
    two rows with the same date, and every date in it is the date of some
    trip row: the loop visits each distinct date once and appends at most
    one row for it. *)
Theorem events_at_most_one_per_date (self : MicroMobilityDataGenerator)
  (trip_data : list Trip.t) (s : RandomState) (events : list Event.t)
  (s' : RandomState) :
  generate_events_data self trip_data s = Ok (events, s') ->
  NoDup (Event.date <$> events)
  /\ forall event, event ∈ events ->
       exists row, row ∈ trip_data /\ ts_date (Trip.timestamp row) = Event.date event.
Proof.
  intros Hrun. apply generate_events_data_dates in Hrun. split.
  - eapply sublist_NoDup; [apply unique_NoDup | exact Hrun].
  - intros event Hin.
    assert (Hd : Event.date event ∈ Event.date <$> events)
      by (apply list_elem_of_fmap; eauto).
    eapply sublist_subseteq in Hd; [| exact Hrun].
    apply unique_elem, list_elem_of_fmap in Hd as (row & Hdate & Hrow). eauto.
Qed.

Lemma events_at_most_one_per_date_witness :
  exists trips s1 events s2,
    generate_trip_data sample_generator sample_state = Ok (trips, s1)
    /\ generate_events_data sample_generator trips sample_state = Ok (events, s2)
    /\ length events = 1%nat
    /\ NoDup (Event.date <$> events).
Proof.
  destruct (generate_trip_data sample_generator sample_state) as [[trips s1] | e] eqn:E;
    [| vm_compute in E; discriminate E].
  pose proof E as E'. vm_compute in E'. injection E' as Htrips _.
  destruct (generate_events_data sample_generator trips sample_state)
    as [[events s2] | e] eqn:Ev;
    [| subst trips; vm_compute in Ev; discriminate Ev].
  exists trips, s1, events, s2. split; [reflexivity |]. split; [exact Ev |].
  split.
  - pose proof Ev as Ev'. subst trips. vm_compute in Ev'. injection Ev' as <- _. reflexivity.
  - exact (proj1 (events_at_most_one_per_date sample_generator trips sample_state
                    events s2 Ev)).
Defined.

(** The events generator returns as soon as the trip table has a row and
    the registry has a station. *)
Lemma generate_events_data_Ok self trip_data s :
  trip_data <> [] -> station_locations self <> [] ->
  exists events s', generate_events_data self trip_data s = Ok (events, s').
Proof.
  intros Htrips Hstations. unfold generate_events_data.
  destruct trip_data as [| row rows]; [congruence |].
  set (unique_dates := unique _).
  destruct (for_loop_total (event_date_body self) unique_dates (fun _ _ _ => True))
    with (acc := [] : list Event.t) (s := s) as (r & s' & Hrun & _);
    [| exact I | exists r, s'; exact Hrun].
  intros done date rest events_data s0 _ _.
  unfold event_date_body, bind.
  destruct (random_random_Ok s0) as (r & s1 & -> & _).
  destruct (Qlt_bool r 0.1%Q); [| eexists _, _; split; [reflexivity | exact I]].
  destruct (random_choice_Ok event_types s1) as (t1 & s2 & -> & _); [discriminate |].
  destruct (random_choice_Ok event_types s2) as (t2 & s3 & -> & _); [discriminate |].
  unfold random_randint, bind.
  destruct (randbelow_Ok (50000 - 1000 + 1) s3) as (k & s4 & -> & _); [lia |].
  unfold ret at 1.
  destruct (random_choice_Ok (Station.base_area <$> station_locations self) s4)
    as (loc & s5 & -> & _).
  { destruct (station_locations self); [congruence | discriminate]. }
  eexists _, _. split; [reflexivity | exact I].
Qed.

(** ** Calendar fields *)

Lemma ts_hour_range t : 0 <= ts_hour t <= 23.
Proof. unfold ts_hour. pose proof (Z.mod_pos_bound (t `div` 3600) 24). lia. Qed.

Lemma ts_weekday_range t : 0 <= ts_weekday t <= 6.
Proof. unfold ts_weekday. pose proof (Z.mod_pos_bound (days_of t + 3) 7). lia. Qed.

(** The hour field of every trip row lies in its range. *)
Lemma trip_hour_range self s trips s' row :
  generate_trip_data self s = Ok (trips, s') -> row ∈ trips ->
  0 <= Trip.hour row <= 23.
Proof.
  intros Hrun Hin. rewrite (row_hour _ _ _ _ _ Hrun Hin). apply ts_hour_range.
Qed.

(** * Further properties of the generator *)

(** ** Station registry: identities and positions *)

(** The registry never raises; it numbers the stations 0, 1, ... in order,
    so the ids are pairwise distinct, and it builds [num_stations] stations
    (none when [num_stations] is zero or negative). *)
Theorem registry_ids_in_order (num_stations : Z) (s : RandomState) :
  exists locations s',
    _generate_station_locations num_stations s = Ok (locations, s')
    /\ Station.station_id <$> locations = seqZ 0 num_stations
    /\ length locations = Z.to_nat num_stations
    /\ NoDup (Station.station_id <$> locations).
Proof.
  destruct (_generate_station_locations_Ok num_stations s) as (l & s' & Hrun & Hids & _).
  exists l, s'. split; [exact Hrun |]. split; [exact Hids |]. split.
  - rewrite <- (length_fmap Station.station_id), Hids. apply length_seqZ.
  - rewrite Hids. apply NoDup_seqZ.
Qed.

Lemma _generate_station_locations_near (num_stations : Z) (s : RandomState) :
  exists locations s',
    _generate_station_locations num_stations s = Ok (locations, s')
    /\ Forall near_anchor locations.
Proof.
  unfold _generate_station_locations.
  apply (for_loop_total station_location_body (seqZ 0 num_stations)
           (fun _ locations _ => Forall near_anchor locations)).
  - intros done i rest locations s0 _ Hnear.
    unfold station_location_body, bind.
    destruct (random_choice_Ok major_areas s0) as (area & s1 & -> & Harea);
      [discriminate |].
    destruct (random_uniform_Ok (-0.02)%Q 0.02%Q s1) as (lat & s2 & -> & Hlat1 & Hlat2);
      [discriminate |].
    destruct (random_uniform_Ok (-0.02)%Q 0.02%Q s2) as (lon & s3 & -> & Hlon1 & Hlon2);
      [discriminate |].
    eexists _, s3. split; [reflexivity |].
    apply Forall_app. split; [exact Hnear |]. constructor; [| constructor].
    exists area. simpl. repeat split; try assumption; try reflexivity; lra.
  - constructor.
Qed.

Lemma registry_stations_near num_stations s locations s' station_info :
  _generate_station_locations num_stations s = Ok (locations, s') ->
  station_info ∈ locations -> near_anchor station_info.
Proof.
  intros Hrun Hin.
  destruct (_generate_station_locations_near num_stations s) as (l & s1 & Hl & Hnear).
  rewrite Hrun in Hl. injection Hl as <- <-.
  rewrite Forall_forall in Hnear. apply Hnear, Hin.
Qed.

(** Every station of the registry sits within 0.02 degrees, on both axes,
    of the catalogue anchor whose name it records in [base_area], carries
    that anchor's archetype, and is named ["Station_<id>_<anchor>"] with
    the anchor's blanks replaced by underscores. *)
Theorem registry_station_near_its_anchor (num_stations : Z) (s : RandomState)
  (locations : list Station.t) (s' : RandomState) (station_info : Station.t) :
  _generate_station_locations num_stations s = Ok (locations, s') ->
  station_info ∈ locations ->
  near_anchor station_info.
Proof. apply registry_stations_near. Qed.

Lemma registry_station_near_its_anchor_witness :
  exists locations s' station_info,
    _generate_station_locations 3 sample_state = Ok (locations, s')
    /\ station_info ∈ locations
    /\ Station.name station_info = "Station_0_Connaught_Place"
    /\ near_anchor station_info.
Proof.
  destruct (_generate_station_locations 3 sample_state) as [[locations s'] | e] eqn:E.
  - pose proof E as E'. vm_compute in E'. injection E' as Hl _. subst locations.
    eexists _, s', _. split; [reflexivity |].
    assert (H1 : forall (x : Station.t) l, x ∈ x :: l) by (intros; apply list_elem_of_here).
    split; [apply H1 |]. split; [reflexivity |].
    exact (registry_station_near_its_anchor 3 sample_state _ s' _ E (H1 _ _)).
  - vm_compute in E. discriminate E.
Defined.

Lemma major_areas_in_box :
  Forall (fun area => (28.42 <= Area.lat area)%Q /\ (Area.lat area <= 28.88)%Q
                      /\ (76.82 <= Area.lon area)%Q /\ (Area.lon area <= 77.28)%Q)
         major_areas.
Proof. unfold major_areas. repeat constructor; simpl; discriminate. Qed.

(** Every station of the registry lies in the box the source gives for
    Delhi: latitude from 28.4 to 28.9, longitude from 76.8 to 77.3. *)
Theorem registry_station_in_delhi_box (num_stations : Z) (s : RandomState)
  (locations : list Station.t) (s' : RandomState) (station_info : Station.t) :
  _generate_station_locations num_stations s = Ok (locations, s') ->
  station_info ∈ locations ->
  (28.4 <= Station.latitude station_info)%Q
  /\ (Station.latitude station_info <= 28.9)%Q
  /\ (76.8 <= Station.longitude station_info)%Q
  /\ (Station.longitude station_info <= 77.3)%Q.
Proof.
  intros Hrun Hin.
  destruct (registry_stations_near _ _ _ _ _ Hrun Hin)
    as (area & Harea & _ & _ & _ & H1 & H2 & H3 & H4).
  pose proof major_areas_in_box as Hbox. rewrite Forall_forall in Hbox.
  destruct (Hbox _ Harea) as (B1 & B2 & B3 & B4).
  repeat split; lra.
Qed.

Lemma registry_station_in_delhi_box_witness :
  exists locations s' station_info,
    _generate_station_locations 3 sample_state = Ok (locations, s')
    /\ station_info ∈ locations
    /\ (28.4 <= Station.latitude station_info)%Q
    /\ (Station.latitude station_info <= 28.9)%Q
    /\ (76.8 <= Station.longitude station_info)%Q
    /\ (Station.longitude station_info <= 77.3)%Q.
Proof.
  destruct (_generate_station_locations 3 sample_state) as [[locations s'] | e] eqn:E.
  - pose proof E as E'. vm_compute in E'. injection E' as Hl _. subst locations.
    eexists _, s', _. split; [reflexivity |].
    assert (H1 : forall (x : Station.t) l, x ∈ x :: l) by (intros; apply list_elem_of_here).
    split; [apply H1 |].
    exact (registry_station_in_delhi_box 3 sample_state _ s' _ E (H1 _ _)).
  - vm_compute in E. discriminate E.
Defined.

(** ** Base demand: unknown archetypes, bounds, weekends *)

Lemma archetypes_lookup (area_type : string) :
  area_type ∈ archetypes <-> is_Some (base_patterns !! area_type).
Proof.
  split.
  - intros H. unfold archetypes in H. elem_cases H; vm_compute; eauto.
  - intros [pattern Hp]. apply base_patterns_lookup in Hp.
    unfold archetypes. elem_cases Hp; injection Hp as -> _; rewrite !elem_of_cons; auto 10.
Qed.





(** ** Demand synthesizer: what a row holds *)

Lemma trip_station_loop_rows (P : Trip.t -> Prop) timestamp wf sf ef stations vars s r s' :
  (forall station_info sample,
      station_info ∈ stations -> P (trip_row timestamp wf sf ef station_info sample)) ->
  Forall P (fst vars) ->
  for_loop stations
    (trip_station_body timestamp (ts_hour timestamp) (ts_weekday timestamp)
       (ts_month timestamp) wf sf ef) vars s = Ok (r, s') ->
  Forall P (fst r).
Proof.
  intros Hrow Hinit Hrun.
  apply (for_loop_inv _ stations (fun _ vars _ => Forall P (fst vars)))
    in Hrun; [exact Hrun | | exact Hinit].
  intros done x rest acc s0 acc' s0' Hsplit Hacc Hbody.
  unfold trip_station_body in Hbody. inv_run. simpl.
  apply Forall_app. split; [exact Hacc |]. constructor; [| constructor].
  apply (Hrow x). rewrite Hsplit. apply elem_of_app. right. apply list_elem_of_here.
Qed.

(** Every row of the table is built from a timestamp of the range, the
    factors returned for that timestamp, and a station of the registry. *)
Lemma generate_trip_data_rows self s trips s' :
  generate_trip_data self s = Ok (trips, s') -> Forall (row_built self) trips.
Proof.
  unfold generate_trip_data. intros Hrun. inv_run.
  match goal with H : for_loop _ _ _ _ = Ok _ |- _ => rename H into Hloop end.
  apply (for_loop_inv _ _ (fun _ vars _ => Forall (row_built self) (fst vars)))
    in Hloop; [exact Hloop | | constructor].
  clear. intros done t rest acc s acc' s' Hsplit Hacc Hbody.
  unfold trip_timestamp_body in Hbody. inv_run.
  match goal with H : for_loop _ _ _ _ = Ok _ |- _ => rename H into Hloop end.
  eapply trip_station_loop_rows in Hloop; [exact Hloop | | exact Hacc].
  intros st sample Hst. unfold row_built.
  eexists t, _, _, _, _, _, _, st, sample.
  split; [rewrite Hsplit; apply elem_of_app; right; apply list_elem_of_here |].
  eauto.
Qed.

(** In every row, [hour], [day_of_week], [month], [is_weekend] and
    [is_holiday] are the calendar fields of the row's own timestamp, the
    seasonal factor is the one of that timestamp, and the station fields
    are those of a station of the registry. *)
Theorem trip_rows_consistent (self : MicroMobilityDataGenerator) (s : RandomState)
  (trips : list Trip.t) (s' : RandomState) :
  generate_trip_data self s = Ok (trips, s') ->
  Forall (row_consistent (station_locations self)) trips.
Proof.
  intros Hrun. apply generate_trip_data_rows in Hrun.
  eapply Forall_impl; [exact Hrun |].
  intros row (t & s1 & s1' & wf & s2 & s2' & ef & st & sample & _ & _ & _ & Hst & ->).
  unfold row_consistent. simpl. do 6 (split; [reflexivity |]).
  exists st. repeat split; try reflexivity. exact Hst.
Qed.

Lemma trip_rows_consistent_witness :
  exists trips s',
    generate_trip_data sample_generator sample_state = Ok (trips, s')
    /\ length trips = 6%nat
    /\ Forall (row_consistent (station_locations sample_generator)) trips.
Proof.
  destruct (generate_trip_data sample_generator sample_state) as [[trips s'] | e] eqn:E.
  - exists trips, s'. split; [reflexivity |]. split.
    + pose proof E as E'. vm_compute in E'. injection E' as <- _. reflexivity.
    + exact (trip_rows_consistent sample_generator sample_state trips s' E).
  - vm_compute in E. discriminate E.
Defined.

Lemma _get_weather_factor_le_1 timestamp s wf s' :
  _get_weather_factor timestamp s = Ok (wf, s') -> (wf <= 1)%Q.
Proof.
  intros H. unfold _get_weather_factor in H. inv_run.
  repeat case_bool_decide; inv_run;
    try (destruct (Qlt_bool _ _)); discriminate.
Qed.

Lemma _get_event_factor_values timestamp s ef s' :
  _get_event_factor timestamp s = Ok (ef, s') ->
  ef = 1.0%Q \/ ((1.2 <= ef)%Q /\ (ef <= 1.8)%Q).
Proof.
  unfold _get_event_factor. intros H. inv_run.
  destruct (Qlt_bool _ _).
  - right. match goal with H : random_uniform _ _ ?s0 = Ok _ |- _ =>
      destruct (random_uniform_Ok 1.2%Q 1.8%Q s0) as (x & s2 & Hx & Hlo & Hhi);
        [discriminate |]; rewrite H in Hx; injection Hx as <- <- end.
    split; assumption.
  - left. inv_run. reflexivity.
Qed.

Lemma _get_seasonal_factor_values timestamp :
  _get_seasonal_factor timestamp ∈ [1.2%Q; 0.8%Q; 0.9%Q; 1.0%Q].
Proof.
  unfold _get_seasonal_factor. repeat case_bool_decide; rewrite !elem_of_cons; auto.
Qed.

(** The factors stored in a row: the weather factor lies in (0, 1], the
    seasonal factor is 1.2, 0.8, 0.9 or 1.0, and the event factor is 1.0 or
    lies between 1.2 and 1.8, so that events never lower the demand. *)
Theorem trip_rows_factor_ranges (self : MicroMobilityDataGenerator) (s : RandomState)
  (trips : list Trip.t) (s' : RandomState) (row : Trip.t) :
  generate_trip_data self s = Ok (trips, s') -> row ∈ trips ->
  (0 < Trip.weather_factor row)%Q /\ (Trip.weather_factor row <= 1)%Q
  /\ Trip.seasonal_factor row ∈ [1.2%Q; 0.8%Q; 0.9%Q; 1.0%Q]
  /\ (Trip.event_factor row = 1.0%Q
      \/ ((1.2 <= Trip.event_factor row)%Q /\ (Trip.event_factor row <= 1.8)%Q)).
Proof.
  intros Hrun Hin. apply generate_trip_data_rows in Hrun.
  rewrite Forall_forall in Hrun.
  destruct (Hrun _ Hin)
    as (t & s1 & s1' & wf & s2 & s2' & ef & st & sample & _ & Hwf & Hef & _ & ->).
  simpl. split; [eapply _get_weather_factor_pos, Hwf |].
  split; [eapply _get_weather_factor_le_1, Hwf |].
  split; [apply _get_seasonal_factor_values |].
  eapply _get_event_factor_values, Hef.
Qed.

Lemma trip_rows_factor_ranges_witness :
  exists trips s' row,
    generate_trip_data sample_generator sample_state = Ok (trips, s')
    /\ row ∈ trips
    /\ (0 < Trip.weather_factor row)%Q /\ (Trip.weather_factor row <= 1)%Q.
Proof.
  destruct (generate_trip_data sample_generator sample_state) as [[trips s'] | e] eqn:E.
  - pose proof E as E'. vm_compute in E'. injection E' as Htrips _. subst trips.
    eexists _, s', _. split; [reflexivity |].
    assert (H1 : forall (x : Trip.t) l, x ∈ x :: l) by (intros; apply list_elem_of_here).
    split; [apply H1 |].
    destruct (trip_rows_factor_ranges sample_generator sample_state _ s' _ E (H1 _ _))
      as (Hpos & Hle & _).
    split; [exact Hpos | exact Hle].
  - vm_compute in E. discriminate E.
Defined.

(** ** Demand synthesizer: size, order and coverage *)

Lemma date_range_length start stop :
  length (date_range start stop) = Z.to_nat ((stop - start) `div` 3600 + 1).
Proof. unfold date_range. rewrite length_fmap. apply length_seqZ. Qed.

(** The table holds one row per timestamp of the range and station, in
    timestamp-major, station-minor order; its size is the number of hourly
    instants from [start_date] to [end_date], both included, times the
    number of stations. *)
Theorem trip_table_order_and_size (self : MicroMobilityDataGenerator) (s : RandomState)
  (trips : list Trip.t) (s' : RandomState) :
  generate_trip_data self s = Ok (trips, s') ->
  trip_key <$> trips
  = table_keys (date_range (start_date self) (end_date self)) (station_locations self)
  /\ length trips
     = (Z.to_nat ((end_date self - start_date self) `div` 3600 + 1)
        * length (station_locations self))%nat.
Proof.
  intros Hrun. pose proof (generate_trip_data_keys _ _ _ _ Hrun) as Hkeys.
  split; [exact Hkeys |].
  rewrite <- (length_fmap trip_key), Hkeys, table_keys_length, date_range_length.
  reflexivity.
Qed.

Lemma trip_table_order_and_size_witness :
  exists trips s',
    generate_trip_data sample_generator sample_state = Ok (trips, s')
    /\ trip_key <$> trips
       = [ (1719792000, 0); (1719792000, 1); (1719795600, 0); (1719795600, 1);
           (1719799200, 0); (1719799200, 1) ]
    /\ length trips = 6%nat.
Proof.
  destruct (generate_trip_data sample_generator sample_state) as [[trips s'] | e] eqn:E.
  - exists trips, s'. split; [reflexivity |].
    destruct (trip_table_order_and_size sample_generator sample_state trips s' E)
      as [Hkeys Hlen].
    split; [rewrite Hkeys; vm_compute; reflexivity | rewrite Hlen; vm_compute; reflexivity].
  - vm_compute in E. discriminate E.
Defined.

(** When [end_date] is a midnight (a date without a time of day), the rows
    dated on the end date are those of that midnight alone: the last day of
    the range is covered by its hour 0 only. *)
Theorem last_day_has_midnight_only (self : MicroMobilityDataGenerator) (s : RandomState)
  (trips : list Trip.t) (s' : RandomState) (row : Trip.t) :
  generate_trip_data self s = Ok (trips, s') ->
  end_date self `mod` 86400 = 0 ->
  row ∈ trips ->
  ts_date (Trip.timestamp row) = ts_date (end_date self) ->
  Trip.timestamp row = end_date self /\ Trip.hour row = 0.
Proof.
  intros Hrun Hmid Hin Hdate.
  pose proof (row_hour _ _ _ _ _ Hrun Hin) as Hhour.
  apply generate_trip_data_rows in Hrun. rewrite Forall_forall in Hrun.
  destruct (Hrun _ Hin)
    as (t & s1 & s1' & wf & s2 & s2' & ef & st & sample & Ht & _ & _ & _ & Hrow).
  assert (Hts : Trip.timestamp row = t) by (rewrite Hrow; reflexivity).
  rewrite Hts in *. clear Hts Hrow.
  apply date_range_elem in Ht as (k & Hk & _ & Hle). rewrite <- Hk in Hle.
  unfold ts_date, days_of in Hdate.
  pose proof (Z.div_mod (end_date self) 86400 ltac:(lia)) as Hdm.
  pose proof (Z.div_mod t 86400 ltac:(lia)) as Hdt.
  pose proof (Z.mod_pos_bound t 86400 ltac:(lia)) as Hbt.
  assert (Heq : t = end_date self) by lia.
  split; [exact Heq |].
  rewrite Hhour, Heq. unfold ts_hour.
  replace (end_date self) with (24 * (end_date self `div` 86400) * 3600) at 1 by lia.
  rewrite Z.div_mul by lia. rewrite Z.mul_comm. apply Z.mod_mul. lia.
Qed.

Lemma last_day_has_midnight_only_witness :
  exists trips s' row,
    generate_trip_data
      (mkGenerator (mkTimestamp 2024 1 1 22 0 0) (mkTimestamp 2024 1 2 0 0 0) 2 "Delhi"
         (station_locations sample_generator)) sample_state = Ok (trips, s')
    /\ row ∈ trips
    /\ Trip.timestamp row = mkTimestamp 2024 1 2 0 0 0 /\ Trip.hour row = 0.
Proof.
  set (g := mkGenerator (mkTimestamp 2024 1 1 22 0 0) (mkTimestamp 2024 1 2 0 0 0) 2 "Delhi"
              (station_locations sample_generator)).
  destruct (generate_trip_data g sample_state) as [[trips s'] | e] eqn:E.
  - pose proof E as E'. vm_compute in E'. injection E' as Htrips _. subst trips.
    eexists _, s', _. split; [reflexivity |].
    assert (H5 : forall (a b c d x : Trip.t) l, x ∈ a :: b :: c :: d :: x :: l).
    { intros. do 4 apply list_elem_of_further. apply list_elem_of_here. }
    split; [apply H5 |].
    exact (last_day_has_midnight_only g sample_state _ s' _ E eq_refl (H5 _ _ _ _ _ _) eq_refl).
  - vm_compute in E. discriminate E.
Defined.

(** ** Demand synthesizer: when it raises *)

(** With [num_stations = 0] and a range that is not inverted,
    [generate_trip_data] raises [ZeroDivisionError]: the progress
    percentage of the first timestamp divides by a total of zero records. *)
Theorem zero_stations_divide_by_zero (self : MicroMobilityDataGenerator)
  (s : RandomState) :
  num_stations self = 0 -> start_date self <= end_date self ->
  generate_trip_data self s = Raise ZeroDivisionError.
Proof. apply generate_trip_data_no_station. Qed.

Lemma zero_stations_divide_by_zero_witness :
  run (construct_and_generate (mkTimestamp 2024 1 1 0 0 0) (mkTimestamp 2024 1 2 0 0 0)
         0 "Delhi") sample_state = Raise ZeroDivisionError.
Proof.
  unfold run, construct_and_generate, bind.
  destruct (__init__ _ _ 0 "Delhi" sample_state) as [[self s1] | e] eqn:E;
    [| vm_compute in E; discriminate E].
  assert (Hself : num_stations self = 0 /\ start_date self <= end_date self).
  { vm_compute in E. injection E as <- _. split; [reflexivity | discriminate]. }
  rewrite (zero_stations_divide_by_zero self s1 (proj1 Hself) (proj2 Hself)).
  reflexivity.
Defined.

Lemma trip_station_loop_KeyError timestamp hour day_of_week month wf sf ef stations :
  (0 < wf)%Q -> (0 < sf)%Q -> (0 < ef)%Q ->
  Exists (fun st => ~ known_area st) stations ->
  forall vars s,
    for_loop stations
      (trip_station_body timestamp hour day_of_week month wf sf ef) vars s
    = Raise KeyError.
Proof.
  intros Hwf Hsf Hef. induction stations as [| st stations IH]; intros Hex vars s.
  - inversion Hex.
  - simpl. unfold bind at 1.
    destruct (base_patterns !! Station.area_type st) as [pattern |] eqn:Hp.
    + assert (Hknown : known_area st) by (exists pattern; exact Hp).
      destruct (_calculate_base_demand_pos hour day_of_week _ Hknown) as (v & Hv & Hpos).
      unfold trip_station_body at 1, bind. rewrite Hv. simpl.
      destruct (np_random_poisson_Ok (v * wf * sf * ef) s) as (k & s1 & ->).
      { apply Qlt_le_weak. repeat apply Qmult_lt_0_compat; assumption. }
      unfold ret at 1. apply IH.
      apply Exists_cons in Hex as [Hst | Hrest]; [contradiction | exact Hrest].
    + unfold trip_station_body at 1, bind, _calculate_base_demand.
      rewrite Hp. reflexivity.
Qed.

(** When some station's area type is none of the five archetypes (and the
    range is not inverted, with a non-zero [num_stations]),
    [generate_trip_data] raises [KeyError] and returns no table at all. *)
Theorem stray_area_type_raises_KeyError (self : MicroMobilityDataGenerator)
  (s : RandomState) (station_info : Station.t) :
  start_date self <= end_date self -> num_stations self <> 0 ->
  station_info ∈ station_locations self ->
  Station.area_type station_info ∉ archetypes ->
  generate_trip_data self s = Raise KeyError.
Proof.
  intros Hrange Hnum Hin Hstray. unfold generate_trip_data.
  assert (Hstart : start_date self ∈ date_range (start_date self) (end_date self)).
  { apply date_range_elem. exists 0. lia. }
  destruct (date_range (start_date self) (end_date self)) as [| t ts] eqn:Hdr;
    [inversion Hstart |].
  unfold bind at 1. simpl for_loop. unfold bind at 1.
  unfold trip_timestamp_body at 1, bind.
  rewrite progress_indicator_Ok by (simpl length; nia).
  destruct (_get_weather_factor_Ok t s) as (wf & s1 & Hwf). rewrite Hwf.
  destruct (_get_event_factor_Ok t s1) as (ef & s2 & Hef & Hlo & _). rewrite Hef.
  rewrite trip_station_loop_KeyError; [reflexivity | | | |].
  - eapply _get_weather_factor_pos, Hwf.
  - apply _get_seasonal_factor_pos.
  - lra.
  - apply Exists_exists. exists station_info. split; [exact Hin |].
    unfold known_area. rewrite <- archetypes_lookup. exact Hstray.
Qed.

Lemma stray_area_type_raises_KeyError_witness :
  generate_trip_data stray_generator sample_state = Raise KeyError.
Proof.
  apply (stray_area_type_raises_KeyError stray_generator sample_state
           (Station.mk 1 "Station_1_Okhla" 28.5%Q 77.3%Q "industrial" "Okhla")).
  - vm_compute. discriminate.
  - vm_compute. discriminate.
  - simpl. apply list_elem_of_further, list_elem_of_here.
  - simpl. unfold archetypes. rewrite !elem_of_cons, elem_of_nil.
    intros H. repeat (destruct H as [H | H]; [discriminate H |]). exact H.
Defined.

(** ** Constructor and synthesizer together *)

Lemma __init___Ok start stop n city s self s1 :
  __init__ start stop n city s = Ok (self, s1) ->
  start_date self = start /\ end_date self = stop /\ num_stations self = n
  /\ city_name self = city
  /\ Station.station_id <$> station_locations self = seqZ 0 n
  /\ Forall from_catalogue (station_locations self).
Proof.
  unfold __init__. intros Hrun. inv_run.
  match goal with H : _generate_station_locations _ _ = Ok _ |- _ => rename H into Hloc end.
  destruct (_generate_station_locations_Ok n s) as (l & s2 & Hl & Hids & Hcat).
  rewrite Hloc in Hl. injection Hl as <- <-. simpl. auto 10.
Qed.

(** A generator constructed with a non-zero [num_stations] always yields a
    trip table: construction and generation raise nothing, and the table
    has one row per hourly instant of the range and station (no row when
    [num_stations] is negative or the range is inverted). *)
Theorem constructed_generator_generates (start stop : Timestamp) (n : Z)
  (city : string) (s : RandomState) :
  n <> 0 ->
  exists self s1 trips s2,
    __init__ start stop n city s = Ok (self, s1)
    /\ generate_trip_data self s1 = Ok (trips, s2)
    /\ length trips = (Z.to_nat ((stop - start) `div` 3600 + 1) * Z.to_nat n)%nat.
Proof.
  intros Hn.
  destruct (_generate_station_locations_Ok n s) as (locations & s1 & Hloc & Hids & Hcat).
  set (self := mkGenerator start stop n city locations).
  destruct (generate_trip_data_Ok self s1) as (trips & s2 & Hrun).
  { exact Hn. }
  { simpl. eapply Forall_impl; [exact Hcat | apply from_catalogue_known]. }
  exists self, s1, trips, s2.
  split; [unfold __init__, bind; rewrite Hloc; reflexivity |].
  split; [exact Hrun |].
  pose proof (generate_trip_data_keys _ _ _ _ Hrun) as Hkeys. simpl in Hkeys.
  rewrite <- (length_fmap trip_key), Hkeys, table_keys_length, date_range_length.
  rewrite <- (length_fmap Station.station_id locations), Hids, length_seqZ. reflexivity.
Qed.

Lemma constructed_generator_generates_witness :
  exists self s1 trips s2,
    __init__ (mkTimestamp 2024 1 1 0 0 0) (mkTimestamp 2024 12 31 0 0 0) 50 "Delhi"
      sample_state = Ok (self, s1)
    /\ generate_trip_data self s1 = Ok (trips, s2)
    /\ Z.of_nat (length trips) = 438050.
Proof.
  destruct (constructed_generator_generates (mkTimestamp 2024 1 1 0 0 0)
              (mkTimestamp 2024 12 31 0 0 0) 50 "Delhi" sample_state)
    as (self & s1 & trips & s2 & H1 & H2 & H3).
  - discriminate.
  - exists self, s1, trips, s2. split; [exact H1 |]. split; [exact H2 |].
    rewrite H3, Nat2Z.inj_mul, !Z2Nat.id by (vm_compute; discriminate).
    vm_compute. reflexivity.
Defined.

(** In the table of a constructed generator, the station fields of a row
    are determined by its [station_id]: two rows with the same id carry
    the same name, position and area type. *)
Theorem station_fields_follow_id (start stop : Timestamp) (n : Z) (city : string)
  (s : RandomState) (self : MicroMobilityDataGenerator) (s1 : RandomState)
  (trips : list Trip.t) (s2 : RandomState) (r1 r2 : Trip.t) :
  __init__ start stop n city s = Ok (self, s1) ->
  generate_trip_data self s1 = Ok (trips, s2) ->
  r1 ∈ trips -> r2 ∈ trips ->
  Trip.station_id r1 = Trip.station_id r2 ->
  Trip.station_name r1 = Trip.station_name r2
  /\ Trip.latitude r1 = Trip.latitude r2
  /\ Trip.longitude r1 = Trip.longitude r2
  /\ Trip.area_type r1 = Trip.area_type r2.
Proof.
  intros Hinit Hrun H1 H2 Hid.
  apply __init___Ok in Hinit as (_ & _ & _ & _ & Hids & _).
  apply generate_trip_data_rows in Hrun. rewrite Forall_forall in Hrun.
  destruct (Hrun _ H1)
    as (t1 & ? & ? & wf1 & ? & ? & ef1 & st1 & k1 & _ & _ & _ & Hst1 & ->).
  destruct (Hrun _ H2)
    as (t2 & ? & ? & wf2 & ? & ? & ef2 & st2 & k2 & _ & _ & _ & Hst2 & ->).
  simpl in Hid |- *.
  assert (Hsame : st1 = st2).
  { apply list_elem_of_lookup in Hst1 as [i Hi], Hst2 as [j Hj].
    assert (Hi' : (Station.station_id <$> station_locations self) !! i
                  = Some (Station.station_id st1))
      by (rewrite list_lookup_fmap, Hi; reflexivity).
    assert (Hj' : (Station.station_id <$> station_locations self) !! j
                  = Some (Station.station_id st1))
      by (rewrite list_lookup_fmap, Hj, Hid; reflexivity).
    assert (Hnd : NoDup (Station.station_id <$> station_locations self))
      by (rewrite Hids; apply NoDup_seqZ).
    pose proof (NoDup_lookup _ _ _ _ Hnd Hi' Hj') as <-. congruence. }
  subst st2. auto.
Qed.

Lemma station_fields_follow_id_witness :
  exists self s1 trips s2 r1 r2,
    __init__ (mkTimestamp 2024 7 1 0 0 0) (mkTimestamp 2024 7 1 1 0 0) 2 "Delhi"
      sample_state = Ok (self, s1)
    /\ generate_trip_data self s1 = Ok (trips, s2)
    /\ r1 ∈ trips /\ r2 ∈ trips
    /\ Trip.timestamp r1 <> Trip.timestamp r2
    /\ Trip.station_id r1 = Trip.station_id r2
    /\ Trip.station_name r1 = Trip.station_name r2
    /\ Trip.latitude r1 = Trip.latitude r2.
Proof.
  destruct (__init__ (mkTimestamp 2024 7 1 0 0 0) (mkTimestamp 2024 7 1 1 0 0) 2 "Delhi"
              sample_state) as [[self s1] | e] eqn:E0;
    [| vm_compute in E0; discriminate E0].
  destruct (generate_trip_data self s1) as [[trips s2] | e] eqn:E.
  - pose proof E0 as E0'. vm_compute in E0'. injection E0' as Hself Hs1.
    pose proof E as E'. rewrite <- Hself, <- Hs1 in E'. vm_compute in E'.
    injection E' as Htrips _.
    assert (H1 : forall (a b c : Trip.t) l, a ∈ a :: b :: c :: l)
      by (intros; apply list_elem_of_here).
    assert (H3 : forall (a b c : Trip.t) l, c ∈ a :: b :: c :: l)
      by (intros; do 2 apply list_elem_of_further; apply list_elem_of_here).
    rewrite <- Htrips in E.
    eexists self, s1, _, s2, _, _. split; [reflexivity |]. split; [exact E |].
    split; [apply H1 |]. split; [apply H3 |].
    split; [simpl; discriminate |]. split; [reflexivity |].
    destruct (station_fields_follow_id _ _ _ _ _ _ _ _ _ _ _ E0 E (H1 _ _ _ _) (H3 _ _ _ _)
                eq_refl) as (Hname & Hlat & _).
    split; [exact Hname | exact Hlat].
  - pose proof E0 as E0'. vm_compute in E0'. injection E0' as Hself Hs1.
    rewrite <- Hself, <- Hs1 in E. vm_compute in E. discriminate E.
Defined.

(** ** Demand synthesizer: one numpy draw per row *)

Lemma random_random_np s r s' :
  random_random s = Ok (r, s') -> np_tape s' = np_tape s /\ np_pos s' = np_pos s.
Proof. unfold random_random. intros H. injection H as _ <-. auto. Qed.

Lemma random_uniform_np a b s x s' :
  random_uniform a b s = Ok (x, s') -> np_tape s' = np_tape s /\ np_pos s' = np_pos s.
Proof.
  unfold random_uniform. intros H. inv_run. eapply random_random_np; eauto.
Qed.

Lemma _get_weather_factor_np timestamp s wf s' :
  _get_weather_factor timestamp s = Ok (wf, s') ->
  np_tape s' = np_tape s /\ np_pos s' = np_pos s.
Proof.
  unfold _get_weather_factor. intros H. inv_run.
  case_bool_decide; inv_run; [eapply random_random_np; eauto | auto].
Qed.

Lemma _get_event_factor_np timestamp s ef s' :
  _get_event_factor timestamp s = Ok (ef, s') ->
  np_tape s' = np_tape s /\ np_pos s' = np_pos s.
Proof.
  unfold _get_event_factor. intros H. inv_run.
  match goal with H : random_random _ = Ok _ |- _ =>
    apply random_random_np in H as [Ht Hp] end.
  destruct (Qlt_bool _ _).
  - match goal with H : random_uniform _ _ _ = Ok _ |- _ =>
      apply random_uniform_np in H as [Ht' Hp'] end.
    split; congruence.
  - inv_run. auto.
Qed.

Lemma progress_indicator_state processed total_records s u s' :
  progress_indicator processed total_records s = Ok (u, s') -> s' = s.
Proof.
  unfold progress_indicator. destruct (_ =? 0); intros H; inv_run; reflexivity.
Qed.

Lemma counts_follow_draws_step s0 trips s row sample s' :
  counts_follow_draws s0 trips s ->
  sample = np_tape s (np_pos s) ->
  np_tape s' = np_tape s -> np_pos s' = S (np_pos s) ->
  Trip.trip_count row = Z.max 0 sample ->
  counts_follow_draws s0 (trips ++ [row]) s'.
Proof.
  intros (Htape & Hpos & Hrows) Hsample Htape' Hpos' Hcount.
  split; [congruence |]. split; [rewrite Hpos', Hpos, length_app; simpl; lia |].
  intros i r Hi. apply lookup_app_Some in Hi as [Hi | [Hlen Hi]].
  - apply Hrows, Hi.
  - apply list_lookup_singleton_Some in Hi as [Hi0 <-].
    rewrite Hcount, Hsample, Htape, Hpos. do 2 f_equal. lia.
Qed.

Lemma np_random_poisson_inv lam s sample s' :
  np_random_poisson lam s = Ok (sample, s') ->
  sample = np_tape s (np_pos s) /\ np_tape s' = np_tape s /\ np_pos s' = S (np_pos s).
Proof.
  unfold np_random_poisson. destruct (Qlt_bool lam 0); [discriminate |].
  intros H. injection H as <- <-. auto.
Qed.

Lemma generate_trip_data_draws self s trips s' :
  generate_trip_data self s = Ok (trips, s') -> counts_follow_draws s trips s'.
Proof.
  unfold generate_trip_data. intros Hrun. inv_run.
  match goal with H : for_loop _ _ _ _ = Ok _ |- _ => rename H into Hloop end.
  apply (for_loop_inv _ _ (fun _ vars s1 => counts_follow_draws s (fst vars) s1))
    in Hloop; [exact Hloop | |].
  - clear. intros done t rest acc s1 acc' s1' _ Hacc Hbody.
    unfold trip_timestamp_body in Hbody. inv_run.
    match goal with H : progress_indicator _ _ _ = Ok _ |- _ =>
      apply progress_indicator_state in H; subst end.
    match goal with H : _get_weather_factor _ _ = Ok _ |- _ =>
      apply _get_weather_factor_np in H as [Wt Wp] end.
    match goal with H : _get_event_factor _ _ = Ok _ |- _ =>
      apply _get_event_factor_np in H as [Et Ep] end.
    match goal with H : for_loop _ _ _ _ = Ok _ |- _ => rename H into Hloop end.
    apply (for_loop_inv _ _ (fun _ vars s2 => counts_follow_draws s (fst vars) s2))
      in Hloop; [exact Hloop | |].
    + clear. intros done st rest vars s2 vars' s2' _ Hvars Hbody.
      unfold trip_station_body in Hbody. inv_run.
      match goal with H : np_random_poisson _ _ = Ok _ |- _ =>
        apply np_random_poisson_inv in H as (Hk & Ht & Hp) end.
      simpl. eapply counts_follow_draws_step; eauto.
    + destruct Hacc as (Htape & Hpos & Hrows).
      split; [congruence |]. split; [congruence | exact Hrows].
  - split; [reflexivity |]. split; [simpl; lia |].
    intros i row Hi. inversion Hi.
Qed.

(** [generate_trip_data] takes exactly one sample from the numpy stream per
    row, in row order, and leaves the stream otherwise untouched: the
    [trip_count] of the i-th row is the i-th sample, clamped at 0. *)
Theorem trip_counts_follow_numpy_draws (self : MicroMobilityDataGenerator)
  (s : RandomState) (trips : list Trip.t) (s' : RandomState) :
  generate_trip_data self s = Ok (trips, s') ->
  np_tape s' = np_tape s
  /\ np_pos s' = (np_pos s + length trips)%nat
  /\ forall i row, trips !! i = Some row ->
       Trip.trip_count row = Z.max 0 (np_tape s (np_pos s + i)%nat).
Proof. apply generate_trip_data_draws. Qed.

Lemma trip_counts_follow_numpy_draws_witness :
  exists trips s',
    generate_trip_data sample_generator sample_state = Ok (trips, s')
    /\ np_pos s' = 6%nat
    /\ Trip.trip_count <$> trips = [0; 0; 0; 1; 2; 3].
Proof.
  destruct (generate_trip_data sample_generator sample_state) as [[trips s'] | e] eqn:E.
  - exists trips, s'. split; [reflexivity |].
    destruct (trip_counts_follow_numpy_draws sample_generator sample_state trips s' E)
      as (_ & Hpos & _).
    pose proof E as E'. vm_compute in E'. injection E' as Htrips _.
    split; [rewrite Hpos, <- Htrips; reflexivity | rewrite <- Htrips; reflexivity].
  - vm_compute in E. discriminate E.
Defined.

(** ** Weather factor, month by month *)




(** ** Rounding *)

Lemma round_half_even_bounds (q : Q) :
  Qfloor q <= round_half_even q <= Qfloor q + 1
  /\ (inject_Z (round_half_even q) - q <= 0.5)%Q
  /\ (q - inject_Z (round_half_even q) <= 0.5)%Q.
Proof.
  unfold round_half_even.
  pose proof (Qfloor_le q) as Hle. pose proof (Qlt_floor q) as Hlt.
  rewrite inject_Z_plus in Hlt. change (inject_Z 1) with 1%Q in Hlt.
  destruct (Qlt_bool (q - inject_Z (Qfloor q)) 0.5) eqn:E1.
  - apply Qlt_bool_iff in E1. split; [lia |]. split; lra.
  - apply Qlt_bool_false_iff in E1.
    destruct (Qlt_bool 0.5 (q - inject_Z (Qfloor q))) eqn:E2.
    + apply Qlt_bool_iff in E2. split; [lia |].
      rewrite inject_Z_plus. change (inject_Z 1) with 1%Q. split; lra.
    + apply Qlt_bool_false_iff in E2. destruct (Z.even (Qfloor q)).
      * split; [lia |]. split; lra.
      * split; [lia |]. rewrite inject_Z_plus. change (inject_Z 1) with 1%Q. split; lra.
Qed.

(** Rounding never crosses an integer. *)
Lemma round_half_even_monotone (q : Q) (A B : Z) :
  ((inject_Z A <= q)%Q -> A <= round_half_even q)
  /\ ((q <= inject_Z B)%Q -> round_half_even q <= B).
Proof.
  destruct (round_half_even_bounds q) as ([Hlo Hhi] & _ & _).
  split; intros H.
  - assert (A <= Qfloor q); [| lia].
    rewrite <- (Qfloor_Z A). apply Qfloor_resp_le, H.
  - unfold round_half_even in *.
    pose proof (Qfloor_le q) as Hle.
    assert (Hfl : Qfloor q <= B).
    { rewrite <- (Qfloor_Z B). apply Qfloor_resp_le, H. }
    destruct (Qlt_bool (q - inject_Z (Qfloor q)) 0.5) eqn:E1; [exact Hfl |].
    apply Qlt_bool_false_iff in E1.
    assert (Hne : Qfloor q <> B).
    { intros Heq. rewrite Heq in E1. lra. }
    repeat destruct (_ : bool); lia.
Qed.

Lemma py_round1_bounds (x : Q) (A B : Z) :
  (inject_Z A <= x * 10)%Q -> (x * 10 <= inject_Z B)%Q ->
  (inject_Z A <= py_round1 x * 10)%Q /\ (py_round1 x * 10 <= inject_Z B)%Q.
Proof.
  intros HA HB. unfold py_round1.
  destruct (round_half_even_monotone (x * 10) A B) as [H1 H2].
  specialize (H1 HA). specialize (H2 HB).
  rewrite Zle_Qle in H1, H2.
  assert (E : (inject_Z (round_half_even (x * 10)) / 10 * 10
               == inject_Z (round_half_even (x * 10)))%Q) by (field).
  rewrite E. split; assumption.
Qed.

(** Rounding to one decimal keeps a value between two bounds that are
    themselves multiples of one tenth, and moves it by at most 0.05. *)
Lemma py_round1_range (x lo hi : Q) (A B : Z) :
  (lo * 10 == inject_Z A)%Q -> (hi * 10 == inject_Z B)%Q ->
  (lo <= x)%Q -> (x <= hi)%Q -> (lo <= py_round1 x)%Q /\ (py_round1 x <= hi)%Q.
Proof.
  intros HA HB Hlo Hhi.
  destruct (py_round1_bounds x A B) as [H1 H2]; [lra | lra |]. split; lra.
Qed.

Lemma py_round1_near (x : Q) :
  (py_round1 x - x <= 0.05)%Q /\ (x - py_round1 x <= 0.05)%Q.
Proof.
  destruct (round_half_even_bounds (x * 10)) as (_ & H1 & H2).
  unfold py_round1.
  assert (E : (inject_Z (round_half_even (x * 10)) / 10 * 10
               == inject_Z (round_half_even (x * 10)))%Q) by (field).
  split; lra.
Qed.

(** ** Draws, read backwards, and computations that always return *)

Lemma random_uniform_range (a b : Q) s x s' :
  (a <= b)%Q -> random_uniform a b s = Ok (x, s') -> (a <= x)%Q /\ (x <= b)%Q.
Proof.
  intros Hab H. destruct (random_uniform_Ok a b s Hab) as (y & s2 & Hy & Hr).
  rewrite H in Hy. injection Hy as <- <-. exact Hr.
Qed.

Lemma random_randint_range (a b : Z) s k s' :
  a <= b -> random_randint a b s = Ok (k, s') -> a <= k <= b.
Proof.
  intros Hab H. unfold random_randint in H. inv_run.
  match goal with H : randbelow ?n ?s0 = Ok _ |- _ =>
    destruct (randbelow_Ok n s0) as (i & s2 & Hi & Hr); [lia |];
    rewrite H in Hi; injection Hi as <- <- end.
  lia.
Qed.

Lemma returns_ret {A} (a : A) : returns (ret a).
Proof. intros s. exists a, s. reflexivity. Qed.

Lemma returns_bind {A B} (c : M A) (k : A -> M B) :
  returns c -> (forall a, returns (k a)) -> returns (bind c k).
Proof.
  intros Hc Hk s. destruct (Hc s) as (a & s1 & Ha). destruct (Hk a s1) as (b & s2 & Hb).
  exists b, s2. unfold bind. rewrite Ha. exact Hb.
Qed.

Lemma returns_random_random : returns random_random.
Proof. intros s. eexists _, _. reflexivity. Qed.

Lemma returns_random_uniform a b : returns (random_uniform a b).
Proof.
  apply returns_bind; [apply returns_random_random | intros; apply returns_ret].
Qed.

Lemma returns_random_randint a b : returns (random_randint a b).
Proof.
  unfold random_randint, randbelow.
  repeat (apply returns_bind; [| intros]);
    first [apply returns_random_random | apply returns_ret].
Qed.

Lemma returns_if {A} (b : bool) (c1 c2 : M A) :
  returns c1 -> returns c2 -> returns (if b then c1 else c2).
Proof. destruct b; auto. Qed.

(** Prove that straight-line sampling code returns. *)
Ltac prove_returns :=
  repeat first
    [ apply returns_ret
    | apply returns_random_random
    | apply returns_random_uniform
    | apply returns_random_randint
    | apply returns_if
    | apply returns_bind; [| intros ?] ].

(** ** Weather generator *)

Lemma weather_row_body_returns row weather_data : returns (weather_row_body row weather_data).
Proof. unfold weather_row_body. prove_returns. Qed.

Lemma weather_row_body_inv row weather_data s weather_data' s' :
  weather_row_body row weather_data s = Ok (weather_data', s') ->
  exists w, weather_data' = weather_data ++ [w] /\ weather_row_of row w.
Proof.
  unfold weather_row_body. cbv zeta. intros Hrun.
  apply bind_Ok in Hrun as ([temp humidity] & s1 & Hth & Hrun).
  apply bind_Ok in Hrun as (wind & s2 & Hwind & Hrun).
  apply bind_Ok in Hrun as (precip & s3 & Hprecip & Hrun).
  apply bind_Ok in Hrun as (aqi & s4 & Haqi & Hrun).
  apply ret_Ok in Hrun as [-> ->].
  eexists. split; [reflexivity |].
  exists temp, humidity, wind, precip. simpl.
  apply random_uniform_range in Hwind; [| discriminate].
  apply random_randint_range in Haqi; [| lia].
  split; [| repeat split; try reflexivity; apply Haqi].
  unfold sampled_in_range.
  set (month := ts_month (Trip.timestamp row)) in *.
  assert (Htemp :
    (month ∈ [5; 6; 7] -> (35 <= temp <= 45)%Q /\ (30 <= humidity <= 60)%Q)
    /\ (month ∉ [5; 6; 7] -> month ∈ [12; 1; 2] ->
          (8 <= temp <= 20)%Q /\ (50 <= humidity <= 80)%Q)
    /\ (month ∉ [5; 6; 7] -> month ∉ [12; 1; 2] ->
          (20 <= temp <= 35)%Q /\ (40 <= humidity <= 70)%Q)).
  { repeat case_bool_decide;
      apply bind_Ok in Hth as (t & s5 & Ht & Hth);
      apply bind_Ok in Hth as (h & s6 & Hh & Hth);
      unfold ret in Hth; injection Hth as -> -> ->;
      apply random_uniform_range in Ht; try discriminate;
      apply random_uniform_range in Hh; try discriminate;
      repeat split; intros; try contradiction; tauto. }
  assert (Hrain :
    (month ∈ [7; 8; 9] -> (0 <= precip <= 20)%Q)
    /\ (month ∉ [7; 8; 9] -> (0 <= precip <= 2)%Q)).
  { case_bool_decide; inv_run; destruct (Qlt_bool _ _); inv_run;
      repeat match goal with
             | H : random_uniform _ _ _ = Ok _ |- _ =>
                 apply random_uniform_range in H; [| discriminate]
             end;
      split; intros; try contradiction; try tauto; split; discriminate. }
  tauto.
Qed.

Lemma generate_weather_data_rows trip_data s weather s' :
  generate_weather_data trip_data s = Ok (weather, s') ->
  Forall2 weather_row_of trip_data weather.
Proof.
  unfold generate_weather_data. intros Hrun.
  apply (for_loop_inv _ trip_data (fun done data _ => Forall2 weather_row_of done data))
    in Hrun; [exact Hrun | | constructor].
  clear. intros done row rest data s data' s' _ Hdone Hbody.
  apply weather_row_body_inv in Hbody as (w & -> & Hw).
  apply Forall2_app; [exact Hdone |]. constructor; [exact Hw | constructor].
Qed.

Lemma generate_weather_data_returns trip_data : returns (generate_weather_data trip_data).
Proof.
  intros s. unfold generate_weather_data.
  destruct (for_loop_total weather_row_body trip_data (fun _ _ _ => True))
    with (acc := [] : list Weather.t) (s := s) as (r & s' & Hrun & _);
    [| exact I | exists r, s'; exact Hrun].
  intros done row rest data s0 _ _.
  destruct (weather_row_body_returns row data s0) as (r & s1 & Hr).
  exists r, s1. split; [exact Hr | exact I].
Qed.

(** [generate_weather_data] never raises and emits one weather row for
    each trip row, in order and with the trip row's timestamp: a timestamp
    shared by several stations gets one weather row per station. *)
Theorem weather_row_per_trip_row (trip_data : list Trip.t) (s : RandomState) :
  exists weather s',
    generate_weather_data trip_data s = Ok (weather, s')
    /\ Weather.timestamp <$> weather = Trip.timestamp <$> trip_data
    /\ length weather = length trip_data.
Proof.
  destruct (generate_weather_data_returns trip_data s) as (weather & s' & Hrun).
  exists weather, s'. split; [exact Hrun |].
  apply generate_weather_data_rows in Hrun.
  split; [| symmetry; eapply Forall2_length, Hrun].
  induction Hrun as [| row w rows ws Hw _ IH]; [reflexivity |].
  rewrite !fmap_cons, IH. f_equal.
  destruct Hw as (? & ? & ? & ? & _ & Ht & _). exact Ht.
Qed.

Lemma py_round1_lower (x lo : Q) (A : Z) :
  (lo * 10 == inject_Z A)%Q -> (lo <= x)%Q -> (lo <= py_round1 x)%Q.
Proof.
  intros HA Hlo. unfold py_round1.
  destruct (round_half_even_monotone (x * 10) A A) as [H1 _].
  assert (H : A <= round_half_even (x * 10)) by (apply H1; lra).
  rewrite Zle_Qle in H.
  assert (E : (inject_Z (round_half_even (x * 10)) / 10 * 10
               == inject_Z (round_half_even (x * 10)))%Q) by (field).
  lra.
Qed.

Lemma py_round1_upper (x hi : Q) (B : Z) :
  (hi * 10 == inject_Z B)%Q -> (x <= hi)%Q -> (py_round1 x <= hi)%Q.
Proof.
  intros HB Hhi. unfold py_round1.
  destruct (round_half_even_monotone (x * 10) B B) as [_ H2].
  assert (H : round_half_even (x * 10) <= B) by (apply H2; lra).
  rewrite Zle_Qle in H.
  assert (E : (inject_Z (round_half_even (x * 10)) / 10 * 10
               == inject_Z (round_half_even (x * 10)))%Q) by (field).
  lra.
Qed.

(** Round a pair of bounds that are multiples of one tenth. *)
Ltac round_bounds A B :=
  split; [eapply (py_round1_lower _ _ A); [reflexivity | tauto]
         | eapply (py_round1_upper _ _ B); [reflexivity | tauto]].

Lemma _get_weather_condition_inv (temp precipitation : Q) :
  (_get_weather_condition temp precipitation = "rainy" -> (5 < precipitation)%Q)
  /\ (_get_weather_condition temp precipitation = "hot" ->
        (precipitation <= 5)%Q /\ (35 < temp)%Q)
  /\ (_get_weather_condition temp precipitation = "cold" ->
        (precipitation <= 5)%Q /\ (temp < 15)%Q)
  /\ (_get_weather_condition temp precipitation = "pleasant" ->
        (precipitation <= 5)%Q /\ (15 <= temp)%Q /\ (temp <= 35)%Q)
  /\ _get_weather_condition temp precipitation ∈ ["rainy"; "hot"; "cold"; "pleasant"].
Proof.
  unfold _get_weather_condition.
  destruct (Qlt_bool 5 precipitation) eqn:E1;
    [apply Qlt_bool_iff in E1
    | apply Qlt_bool_false_iff in E1;
      destruct (Qlt_bool 35 temp) eqn:E2;
        [apply Qlt_bool_iff in E2
        | apply Qlt_bool_false_iff in E2;
          destruct (Qlt_bool temp 15) eqn:E3;
            [apply Qlt_bool_iff in E3 | apply Qlt_bool_false_iff in E3]]];
    (split; [| split; [| split; [| split]]]);
    try (intros H; discriminate H); try (intros _; auto);
    rewrite !elem_of_cons; auto 10.
Qed.

Lemma weather_row_source trip_data s weather s' w :
  generate_weather_data trip_data s = Ok (weather, s') -> w ∈ weather ->
  exists row, row ∈ trip_data /\ weather_row_of row w.
Proof.
  intros Hrun Hin. apply generate_weather_data_rows in Hrun.
  apply list_elem_of_lookup in Hin as [i Hi].
  destruct (Forall2_lookup_r _ _ _ _ _ Hrun Hi) as (row & Hrow & Hw).
  exists row. split; [eapply list_elem_of_lookup_2, Hrow | exact Hw].
Qed.

(** Every weather row lies in the ranges of its month: temperature 35..45
    and humidity 30..60 in May to July, 8..20 and 50..80 in December to
    February, 20..35 and 40..70 otherwise; wind speed 5..25; precipitation
    0..20 in July to September and 0..2 otherwise; AQI 50..300; and the
    condition is one of rainy, hot, cold and pleasant.  Rounding to one
    decimal keeps the stored values inside these ranges. *)
Theorem weather_rows_in_range (trip_data : list Trip.t) (s : RandomState)
  (weather : list Weather.t) (s' : RandomState) (w : Weather.t) :
  generate_weather_data trip_data s = Ok (weather, s') -> w ∈ weather ->
  weather_row_in_range w.
Proof.
  intros Hrun Hin.
  destruct (weather_row_source _ _ _ _ _ Hrun Hin) as (row & _ & Hw).
  destruct Hw as (temp & hum & wind & precip & Hs & Ht & E1 & E2 & E3 & E4 & Haqi & E5).
  unfold weather_row_in_range. rewrite Ht, E1, E2, E3, E4, E5. cbv zeta.
  destruct Hs as (Hhot & Hcold & Hmild & Hwind & Hwet & Hdry).
  split; [intros Hm; specialize (Hhot Hm); split; [round_bounds 350 450 | round_bounds 300 600] |].
  split; [intros Hm |].
  { destruct (decide (ts_month (Trip.timestamp row) ∈ [5; 6; 7])) as [Hm' | Hm'].
    - exfalso. clear -Hm Hm'. rewrite !elem_of_cons, elem_of_nil in Hm.
      rewrite !elem_of_cons, elem_of_nil in Hm'. lia.
    - specialize (Hcold Hm' Hm). split; [round_bounds 80 200 | round_bounds 500 800]. }
  split; [intros Hm1 Hm2; specialize (Hmild Hm1 Hm2);
          split; [round_bounds 200 350 | round_bounds 400 700] |].
  split; [round_bounds 50 250 |].
  split; [intros Hm; specialize (Hwet Hm); round_bounds 0 200 |].
  split; [intros Hm; specialize (Hdry Hm); round_bounds 0 20 |].
  split; [exact Haqi |]. apply _get_weather_condition_inv.
Qed.

Lemma weather_rows_in_range_witness :
  exists weather s' w,
    generate_weather_data [sample_trip_row] sample_state = Ok (weather, s')
    /\ w ∈ weather
    /\ Weather.weather_condition w = "rainy"
    /\ weather_row_in_range w.
Proof.
  destruct (generate_weather_data [sample_trip_row] sample_state)
    as [[weather s'] | e] eqn:E.
  - pose proof E as E'. vm_compute in E'. injection E' as Hw _. subst weather.
    eexists _, s', _. split; [reflexivity |].
    assert (H1 : forall (x : Weather.t) l, x ∈ x :: l) by (intros; apply list_elem_of_here).
    split; [apply H1 |]. split; [reflexivity |].
    exact (weather_rows_in_range [sample_trip_row] sample_state _ s' _ E (H1 _ _)).
  - vm_compute in E. discriminate E.
Defined.

(** A condition is only reported in its season: rainy in July to
    September, hot in May to July, cold in December to February; in March,
    April, October and November every row is pleasant. *)
Theorem weather_condition_follows_season (trip_data : list Trip.t) (s : RandomState)
  (weather : list Weather.t) (s' : RandomState) (w : Weather.t) :
  generate_weather_data trip_data s = Ok (weather, s') -> w ∈ weather ->
  condition_fits_month w
  /\ (ts_month (Weather.timestamp w) ∈ [3; 4; 10; 11] ->
        Weather.weather_condition w = "pleasant").
Proof.
  intros Hrun Hin.
  destruct (weather_row_source _ _ _ _ _ Hrun Hin) as (row & _ & Hw).
  destruct Hw as (temp & hum & wind & precip & Hs & Ht & _ & _ & _ & _ & _ & Hc).
  unfold condition_fits_month. rewrite Ht, Hc. cbv zeta.
  set (month := ts_month (Trip.timestamp row)) in *.
  destruct Hs as (Hhot & Hcold & Hmild & _ & Hwet & Hdry).
  destruct (_get_weather_condition_inv temp precip) as (Irain & Ihot & Icold & _ & Iall).
  assert (Drain : (5 < precip)%Q -> month ∈ [7; 8; 9]).
  { intros Hp. destruct (decide (month ∈ [7; 8; 9])) as [H | H]; [exact H |].
    specialize (Hdry H). lra. }
  assert (Dhot : (35 < temp)%Q -> month ∈ [5; 6; 7]).
  { intros Hp. destruct (decide (month ∈ [5; 6; 7])) as [H | H]; [exact H |].
    destruct (decide (month ∈ [12; 1; 2])) as [H' | H'].
    - specialize (Hcold H H'). lra.
    - specialize (Hmild H H'). lra. }
  assert (Dcold : (temp < 15)%Q -> month ∈ [12; 1; 2]).
  { intros Hp. destruct (decide (month ∈ [12; 1; 2])) as [H' | H']; [exact H' |].
    destruct (decide (month ∈ [5; 6; 7])) as [H | H].
    - specialize (Hhot H). lra.
    - specialize (Hmild H H'). lra. }
  split; [split; [| split] |].
  - intros H. apply Drain, Irain, H.
  - intros H. apply Dhot, Ihot, H.
  - intros H. apply Dcold, Icold, H.
  - intros Hm.
    rewrite !elem_of_cons, elem_of_nil in Iall.
    destruct Iall as [H | [H | [H | [H | []]]]]; [| | | exact H]; exfalso.
    + apply Irain, Drain in H. clear -H Hm.
      rewrite !elem_of_cons, elem_of_nil in H.
      rewrite !elem_of_cons, elem_of_nil in Hm. lia.
    + apply Ihot in H as [_ H]. apply Dhot in H. clear -H Hm.
      rewrite !elem_of_cons, elem_of_nil in H.
      rewrite !elem_of_cons, elem_of_nil in Hm. lia.
    + apply Icold in H as [_ H]. apply Dcold in H. clear -H Hm.
      rewrite !elem_of_cons, elem_of_nil in H.
      rewrite !elem_of_cons, elem_of_nil in Hm. lia.
Qed.

Lemma weather_condition_follows_season_witness :
  exists weather s' w,
    generate_weather_data [sample_trip_row] sample_state = Ok (weather, s')
    /\ w ∈ weather
    /\ Weather.weather_condition w = "rainy"
    /\ ts_month (Weather.timestamp w) = 7
    /\ condition_fits_month w.
Proof.
  destruct (generate_weather_data [sample_trip_row] sample_state)
    as [[weather s'] | e] eqn:E.
  - pose proof E as E'. vm_compute in E'. injection E' as Hw _. subst weather.
    eexists _, s', _. split; [reflexivity |].
    assert (H1 : forall (x : Weather.t) l, x ∈ x :: l) by (intros; apply list_elem_of_here).
    split; [apply H1 |]. split; [reflexivity |]. split; [vm_compute; reflexivity |].
    exact (proj1 (weather_condition_follows_season [sample_trip_row] sample_state _ s' _ E
                    (H1 _ _))).
  - vm_compute in E. discriminate E.
Defined.

(** The condition is computed from the values as sampled, the row stores
    them rounded; still the stored readings never contradict it: a rainy
    row stores a precipitation of at least 5, a hot row a temperature of at
    least 35, a cold row a temperature of at most 15, a pleasant row a
    temperature from 15 to 35, and every row that is not rainy a
    precipitation of at most 5. *)
Theorem weather_condition_fits_stored_reading (trip_data : list Trip.t)
  (s : RandomState) (weather : list Weather.t) (s' : RandomState) (w : Weather.t) :
  generate_weather_data trip_data s = Ok (weather, s') -> w ∈ weather ->
  condition_fits_reading w.
Proof.
  intros Hrun Hin.
  destruct (weather_row_source _ _ _ _ _ Hrun Hin) as (row & _ & Hw).
  destruct Hw as (temp & hum & wind & precip & _ & _ & Et & _ & _ & Ep & _ & Hc).
  unfold condition_fits_reading. rewrite Et, Ep, Hc.
  destruct (_get_weather_condition_inv temp precip) as (Irain & Ihot & Icold & Inice & _).
  split; [| split; [| split]]; intros H.
  - apply Irain in H. eapply (py_round1_lower _ _ 50); [reflexivity | lra].
  - apply Ihot in H as [Hp Ht]. split.
    + eapply (py_round1_lower _ _ 350); [reflexivity | lra].
    + eapply (py_round1_upper _ _ 50); [reflexivity | lra].
  - apply Icold in H as [Hp Ht]. split.
    + eapply (py_round1_upper _ _ 150); [reflexivity | lra].
    + eapply (py_round1_upper _ _ 50); [reflexivity | lra].
  - apply Inice in H as (Hp & Ht1 & Ht2). split; [split |].
    + eapply (py_round1_lower _ _ 150); [reflexivity | lra].
    + eapply (py_round1_upper _ _ 350); [reflexivity | lra].
    + eapply (py_round1_upper _ _ 50); [reflexivity | lra].
Qed.

Lemma weather_condition_fits_stored_reading_witness :
  exists weather s' w,
    generate_weather_data [sample_trip_row] sample_state = Ok (weather, s')
    /\ w ∈ weather
    /\ Weather.weather_condition w = "rainy"
    /\ (5 <= Weather.precipitation w)%Q.
Proof.
  destruct (generate_weather_data [sample_trip_row] sample_state)
    as [[weather s'] | e] eqn:E.
  - pose proof E as E'. vm_compute in E'. injection E' as Hw _. subst weather.
    eexists _, s', _. split; [reflexivity |].
    assert (H1 : forall (x : Weather.t) l, x ∈ x :: l) by (intros; apply list_elem_of_here).
    split; [apply H1 |]. split; [reflexivity |].
    destruct (weather_condition_fits_stored_reading [sample_trip_row] sample_state _ s' _ E
                (H1 _ _)) as (Hrainy & _).
    exact (Hrainy eq_refl).
  - vm_compute in E. discriminate E.
Defined.

(** ** Events generator: rows, order and errors *)

Lemma event_date_body_inv self date events_data s events_data' s' :
  event_date_body self date events_data s = Ok (events_data', s') ->
  events_data' = events_data
  \/ exists event, events_data' = events_data ++ [event]
                   /\ Event.date event = date /\ event_in_range self event.
Proof.
  unfold event_date_body. intros Hrun.
  apply bind_Ok in Hrun as (r & s1 & _ & Hrun).
  destruct (Qlt_bool r 0.1); [| apply ret_Ok in Hrun as [-> _]; left; reflexivity].
  apply bind_Ok in Hrun as (event_type & s2 & Htype & Hrun).
  apply bind_Ok in Hrun as (name_type & s3 & Hname & Hrun).
  apply bind_Ok in Hrun as (attendance & s4 & Hatt & Hrun).
  apply bind_Ok in Hrun as (location & s5 & Hloc & Hrun).
  apply ret_Ok in Hrun as [-> _]. right. eexists. split; [reflexivity |].
  split; [reflexivity |]. unfold event_in_range. simpl.
  split; [eapply random_choice_elem, Htype |].
  split; [exists name_type; split; [eapply random_choice_elem, Hname | reflexivity] |].
  split; [eapply random_randint_range, Hatt; lia |].
  eapply random_choice_elem, Hloc.
Qed.

(** Every event row has an [event_type] of the five-value catalogue, a
    name ["Delhi <Type> Event"] for a type of the catalogue, an attendance
    from 1000 to 50000 and the base area of some station as location. *)
Theorem event_rows_in_range (self : MicroMobilityDataGenerator) (trip_data : list Trip.t)
  (s : RandomState) (events : list Event.t) (s' : RandomState) (event : Event.t) :
  generate_events_data self trip_data s = Ok (events, s') -> event ∈ events ->
  event_in_range self event.
Proof.
  unfold generate_events_data. destruct trip_data as [| row rows]; [discriminate |].
  intros Hrun Hin.
  apply (for_loop_inv _ _ (fun _ events_data _ => Forall (event_in_range self) events_data))
    in Hrun; [rewrite Forall_forall in Hrun; apply Hrun, Hin | | constructor].
  clear. intros done date rest events_data s events_data' s' _ Hall Hbody.
  apply event_date_body_inv in Hbody as [-> | (event & -> & _ & Hev)]; [exact Hall |].
  apply Forall_app. split; [exact Hall |]. constructor; [exact Hev | constructor].
Qed.

Lemma event_rows_in_range_witness :
  exists events s' event,
    generate_events_data sample_generator [sample_trip_row] sample_state = Ok (events, s')
    /\ event ∈ events
    /\ Event.expected_attendance event = 6880
    /\ event_in_range sample_generator event.
Proof.
  destruct (generate_events_data sample_generator [sample_trip_row] sample_state)
    as [[events s'] | e] eqn:E.
  - pose proof E as E'. vm_compute in E'. injection E' as Hev _. subst events.
    eexists _, s', _. split; [reflexivity |].
    assert (H1 : forall (x : Event.t) l, x ∈ x :: l) by (intros; apply list_elem_of_here).
    split; [apply H1 |]. split; [reflexivity |].
    exact (event_rows_in_range sample_generator [sample_trip_row] sample_state _ s' _ E
             (H1 _ _)).
  - vm_compute in E. discriminate E.
Defined.




Lemma events_loop_no_station self dates s :
  station_locations self = [] ->
  (exists s', for_loop dates (event_date_body self) [] s = Ok ([], s'))
  \/ for_loop dates (event_date_body self) [] s = Raise IndexError.
Proof.
  intros Hnone. revert s. induction dates as [| date dates IH]; intros s.
  - left. exists s. reflexivity.
  - assert (Hbody : (exists s1, event_date_body self date [] s = Ok ([], s1))
                    \/ event_date_body self date [] s = Raise IndexError).
    { unfold event_date_body, bind.
      destruct (random_random_Ok s) as (r & s1 & -> & _).
      destruct (Qlt_bool r 0.1); [right | left; exists s1; reflexivity].
      destruct (random_choice_Ok event_types s1) as (t1 & s2 & -> & _); [discriminate |].
      destruct (random_choice_Ok event_types s2) as (t2 & s3 & -> & _); [discriminate |].
      destruct (returns_random_randint 1000 50000 s3) as (k & s4 & ->).
      rewrite Hnone. reflexivity. }
    simpl. unfold bind.
    destruct Hbody as [[s1 ->] | ->]; [apply IH | right; reflexivity].
Qed.

(** How [generate_events_data] fails: on a trip table without rows it
    raises [KeyError] (the table has no timestamp column); with rows but
    without stations it returns no event at all or raises [IndexError]
    (the location is chosen from an empty list); with rows and stations it
    returns. *)
Theorem events_generator_failures (self : MicroMobilityDataGenerator)
  (trip_data : list Trip.t) (s : RandomState) :
  (trip_data = [] -> generate_events_data self trip_data s = Raise KeyError)
  /\ (trip_data <> [] -> station_locations self = [] ->
        (exists s', generate_events_data self trip_data s = Ok ([], s'))
        \/ generate_events_data self trip_data s = Raise IndexError)
  /\ (trip_data <> [] -> station_locations self <> [] ->
        exists events s', generate_events_data self trip_data s = Ok (events, s')).
Proof.
  split; [intros ->; reflexivity |]. split.
  - intros Hrows Hnone. destruct trip_data as [| row rows]; [congruence |].
    unfold generate_events_data. apply events_loop_no_station, Hnone.
  - apply generate_events_data_Ok.
Qed.

Lemma events_generator_failures_witness :
  generate_events_data sample_generator [] sample_state = Raise KeyError
  /\ generate_events_data
       (mkGenerator (mkTimestamp 2024 7 1 0 0 0) (mkTimestamp 2024 7 1 2 0 0) (-1) "Delhi" [])
       [sample_trip_row] sample_state = Raise IndexError.
Proof.
  split.
  - exact (proj1 (events_generator_failures sample_generator [] sample_state) eq_refl).
  - destruct (proj1 (proj2 (events_generator_failures
               (mkGenerator (mkTimestamp 2024 7 1 0 0 0) (mkTimestamp 2024 7 1 2 0 0)
                  (-1) "Delhi" []) [sample_trip_row] sample_state)))
      as [[s' H] | H]; [discriminate | reflexivity | | exact H].
    vm_compute in H. discriminate H.
Defined.

(** The type named in [event_name] is drawn separately from [event_type]:
    an event of type festival can be named a conference. *)
Theorem event_name_may_name_another_type :
  exists events s' event,
    generate_events_data sample_generator [sample_trip_row] sample_state = Ok (events, s')
    /\ event ∈ events
    /\ Event.event_type event = "festival"
    /\ Event.event_name event = "Delhi Conference Event".
Proof.
  destruct (generate_events_data sample_generator [sample_trip_row] sample_state)
    as [[events s'] | e] eqn:E; vm_compute in E; [| discriminate E].
  injection E as <- _. eexists _, s', _. split; [reflexivity |].
  split; [apply list_elem_of_here |]. split; reflexivity.
Qed.

(** ** The generation steps of [main] *)

(** With at least one station and a range that is not inverted, the three
    generation steps of [main] all return: a trip table with one row per
    hourly instant and station, a weather table with as many rows, and an
    events table with pairwise distinct dates. *)
Theorem generation_steps_return (start stop : Timestamp) (n : Z) (city : string)
  (s : RandomState) :
  1 <= n -> start <= stop ->
  exists trips weather events s',
    generation_steps start stop n city s = Ok ((trips, weather, events), s')
    /\ length trips = (Z.to_nat ((stop - start) `div` 3600 + 1) * Z.to_nat n)%nat
    /\ length weather = length trips
    /\ NoDup (Event.date <$> events).
Proof.
  intros Hn Hrange. unfold generation_steps.
  destruct (_generate_station_locations_Ok n s) as (locations & s1 & Hloc & Hids & Hcat).
  set (self := mkGenerator start stop n city locations).
  assert (Hinit : __init__ start stop n city s = Ok (self, s1))
    by (unfold __init__, bind; rewrite Hloc; reflexivity).
  destruct (generate_trip_data_Ok self s1) as (trips & s2 & Htrips).
  { simpl. lia. }
  { simpl. eapply Forall_impl; [exact Hcat | apply from_catalogue_known]. }
  destruct (generate_weather_data_returns trips s2) as (weather & s3 & Hweather).
  assert (Hlen : length trips
                 = (Z.to_nat ((stop - start) `div` 3600 + 1) * Z.to_nat n)%nat).
  { pose proof (generate_trip_data_keys _ _ _ _ Htrips) as Hkeys. simpl in Hkeys.
    rewrite <- (length_fmap trip_key), Hkeys, table_keys_length, date_range_length.
    rewrite <- (length_fmap Station.station_id locations), Hids, length_seqZ. reflexivity. }
  assert (Hhours : 0 <= (stop - start) `div` 3600) by (apply Z.div_pos; lia).
  destruct (generate_events_data_Ok self trips s3) as (events & s4 & Hevents).
  { intros ->. simpl in Hlen. nia. }
  { simpl. intros ->. simpl in Hids. symmetry in Hids.
    apply (f_equal length) in Hids. rewrite length_seqZ in Hids. simpl in Hids. lia. }
  exists trips, weather, events, s4. unfold bind.
  rewrite Hinit, Htrips, Hweather, Hevents. split; [reflexivity |].
  split; [exact Hlen |]. split.
  - apply generate_weather_data_rows in Hweather. symmetry. eapply Forall2_length, Hweather.
  - apply generate_events_data_dates in Hevents.
    eapply sublist_NoDup; [apply unique_NoDup | exact Hevents].
Qed.

Lemma generation_steps_return_witness :
  exists trips weather events s',
    main_tables sample_state = Ok ((trips, weather, events), s')
    /\ Z.of_nat (length trips) = 438050
    /\ length weather = length trips.
Proof.
  destruct (generation_steps_return (mkTimestamp 2024 1 1 0 0 0)
              (mkTimestamp 2024 12 31 0 0 0) 50 "Delhi" sample_state)
    as (trips & weather & events & s' & Hrun & Hlen & Hw & _).
  - lia.
  - vm_compute. discriminate.
  - exists trips, weather, events, s'. split; [exact Hrun |]. split; [| exact Hw].
    rewrite Hlen, Nat2Z.inj_mul, !Z2Nat.id by (vm_compute; discriminate).
    vm_compute. reflexivity.
Defined.

(** The generation steps of [main] fail on degenerate arguments: with
    [num_stations = 0] and a range that is not inverted the trip step
    raises [ZeroDivisionError]; with an inverted range, or with a negative
    [num_stations], the trip and weather tables come out empty and the
    events step then raises [KeyError]. *)
Theorem generation_steps_failures (start stop : Timestamp) (n : Z) (city : string)
  (s : RandomState) :
  (n = 0 -> start <= stop ->
     generation_steps start stop n city s = Raise ZeroDivisionError)
  /\ (stop < start \/ n < 0 ->
        generation_steps start stop n city s = Raise KeyError).
Proof.
  unfold generation_steps.
  destruct (_generate_station_locations_Ok n s) as (locations & s1 & Hloc & Hids & Hcat).
  set (self := mkGenerator start stop n city locations).
  assert (Hinit : __init__ start stop n city s = Ok (self, s1))
    by (unfold __init__, bind; rewrite Hloc; reflexivity).
  split.
  - intros Hn Hrange. unfold bind. rewrite Hinit.
    rewrite generate_trip_data_no_station; [reflexivity | exact Hn | exact Hrange].
  - intros Hdeg.
    assert (Htrips : exists s2, generate_trip_data self s1 = Ok ([], s2)).
    { destruct Hdeg as [Hinv | Hneg].
      - exists s1. unfold generate_trip_data. simpl start_date. simpl end_date.
        rewrite (date_range_inverted _ _ Hinv). reflexivity.
      - destruct (generate_trip_data_Ok self s1) as (trips & s2 & Hrun).
        { simpl. lia. }
        { simpl. eapply Forall_impl; [exact Hcat | apply from_catalogue_known]. }
        exists s2. rewrite Hrun. do 2 f_equal.
        pose proof (generate_trip_data_keys _ _ _ _ Hrun) as Hkeys. simpl in Hkeys.
        apply (f_equal length) in Hkeys.
        rewrite length_fmap, table_keys_length in Hkeys.
        rewrite <- (length_fmap Station.station_id locations), Hids, length_seqZ in Hkeys.
        rewrite Z2Nat.nonpos in Hkeys by lia. rewrite Nat.mul_0_r in Hkeys.
        destruct trips; [reflexivity | discriminate Hkeys]. }
    destruct Htrips as (s2 & Htrips). unfold bind. rewrite Hinit, Htrips. reflexivity.
Qed.

Lemma generation_steps_failures_witness :
  run (generation_steps (mkTimestamp 2024 1 1 0 0 0) (mkTimestamp 2024 1 2 0 0 0)
         0 "Delhi") sample_state = Raise ZeroDivisionError
  /\ run (generation_steps (mkTimestamp 2024 1 2 0 0 0) (mkTimestamp 2024 1 1 0 0 0)
            3 "Delhi") sample_state = Raise KeyError.
Proof.
  unfold run. split.
  - rewrite (proj1 (generation_steps_failures (mkTimestamp 2024 1 1 0 0 0)
                      (mkTimestamp 2024 1 2 0 0 0) 0 "Delhi" sample_state) eq_refl);
      [reflexivity | vm_compute; discriminate].
  - rewrite (proj2 (generation_steps_failures (mkTimestamp 2024 1 2 0 0 0)
                      (mkTimestamp 2024 1 1 0 0 0) 3 "Delhi" sample_state));
      [reflexivity | left; vm_compute; reflexivity].
Defined.
